(** * SMBasic: a shallow embedding of [smbasic.py]

    The module under study drives an I2C character device
    ([/dev/i2c-N]) with [ioctl], [read] and [write], bounds every
    transfer with the process alarm, and optionally claims one channel
    of a multiplexer for the duration of a [with] block.

    The embedding is a state-and-exception monad over
    - the attributes of the one [SMBasic] object in play,
    - the process signal state (SIGALRM handler, pending alarm),
    - an abstract kernel (the device behind the file descriptor), and
    - the trace of everything the program did to the outside world.

    Python's unbounded [while] loops take a fuel argument; running out
    of fuel is an outcome of its own, distinct from an exception and
    from a call that blocks in the kernel for ever. *)

From Stdlib Require Import String ZArith List Lia Bool.
From Stdlib Require Import Strings.Byte.
Import ListNotations.
Local Open Scope Z_scope.

(** ** Python values used by the module *)

(** [bytes] and [bytearray] objects: both are byte sequences, and
    Python compares one with the other by content. *)
Definition bytes := list byte.

Definition bytes_eqb (a b : bytes) : bool :=
  if list_eq_dec Byte.byte_eq_dec a b then true else false.

(** The exceptions that can travel through the module.  The two
    [assert] statements raise [AssertionError], without a message in
    [__init__] and with one in [read_bytes] and [write_bytes]. *)
Inductive exn : Type :=
| AssertionError (msg : string)
| ValueError
| TypeError
| OverflowError
| AttributeError
| OSError (errno : Z)
| TimeoutException.

(** Outcome of a pure Python expression. *)
Inductive pyres (A : Type) : Type :=
| Value (a : A)
| Error (e : exn).
Arguments Value {A} a.
Arguments Error {A} e.

Definition byte_of_Z (z : Z) : byte :=
  match Byte.of_N (Z.to_N z) with
  | Some b => b
  | None => x00
  end.

Definition Z_of_byte (b : byte) : Z := Z.of_N (Byte.to_N b).

(** [a << b] on Python ints. *)
Definition lshift (a b : Z) : pyres Z :=
  if b <? 0 then Error ValueError else Value (Z.shiftl a b).

(** [bytearray(iterable_of_ints)]: every item must be in [range(0, 256)]. *)
Fixpoint bytearray_of_ints (l : list Z) : pyres bytes :=
  match l with
  | [] => Value []
  | v :: tl =>
      if (0 <=? v) && (v <? 256) then
        match bytearray_of_ints tl with
        | Value bs => Value (byte_of_Z v :: bs)
        | Error e => Error e
        end
      else Error ValueError
  end.

(** [x is not None] *)
Definition is_not_None {A} (x : option A) : bool :=
  match x with
  | Some _ => true
  | None => false
  end.

(** [bytearray(n)]: [n] zero bytes. *)
Definition bytearray_zeros (n : nat) : bytes := repeat x00 n.

(** [ord(c)] on a bytes-like object: defined on length 1 only. *)
Definition ord (c : bytes) : pyres Z :=
  match c with
  | [b] => Value (Z_of_byte b)
  | _ => Error TypeError
  end.

Fixpoint le_digits (length : nat) (v : Z) : bytes :=
  match length with
  | O => []
  | S n => byte_of_Z (v mod 256) :: le_digits n (v / 256)
  end.

(** [v.to_bytes(length, 'big')]. *)
Definition to_bytes_big (v : Z) (length : nat) : pyres bytes :=
  if v <? 0 then Error OverflowError
  else if 256 ^ Z.of_nat length <=? v then Error OverflowError
  else Value (rev (le_digits length v)).

(** ** Module constants *)

Definition _I2C_DEVICE : Z := 0x0703.
Definition _I2C_TIMEOUT : Z := 2.
Definition _MUX_UNLOCK_REGISTER : bytes :=
  match to_bytes_big 0x00 1 with
  | Value b => b
  | Error _ => []
  end.

Definition not_open_msg : string :=
  "Bus must be opened before operations are made against it!".

(** ** The outside world *)

(** What a system call that can fail reports. *)
Inductive sysres (A : Type) : Type :=
| Ok (a : A)
| Errno (errno : Z).
Arguments Ok {A} a.
Arguments Errno {A} errno.

(** What a blocking transfer does: it completes, it fails with an
    errno, or it does not come back on its own. *)
Inductive io (A : Type) : Type :=
| Done (a : A)
| Fault (errno : Z)
| Stalled.
Arguments Done {A} a.
Arguments Fault {A} errno.
Arguments Stalled {A}.

(** The kernel side of the device file: a deterministic machine over a
    state [K].  Closing a descriptor is taken to succeed. *)
Record Kernel (K : Type) : Type := {
  sys_open : Z -> K -> sysres Z * K;
  sys_close : Z -> K -> K;
  sys_ioctl : Z -> Z -> Z -> K -> sysres unit * K;
  sys_read : Z -> nat -> K -> io bytes * K;
  sys_write : Z -> bytes -> K -> io nat * K
}.
Arguments sys_open {K} _.
Arguments sys_close {K} _.
Arguments sys_ioctl {K} _.
Arguments sys_read {K} _.
Arguments sys_write {K} _.

(** Lines the module prints.  One constructor per [print] call of the
    source, carrying the values that are formatted into it. *)
Inductive line : Type :=
| SelectingDevice (addr : Z)
| ReadBytesLine (result : bytes)
| WritingBytesLine (buf : bytes)
| FailedReadLine (addr : Z) (mux : option Z) (channel : option bytes)
| IOErrorReadLine (mux : option Z) (channel : option bytes) (errno : Z)
| FailedWriteLine (addr : Z) (mux : option Z) (channel : option bytes)
| IOErrorWriteLine (mux : option Z) (channel : option bytes) (errno : Z).

(** Everything the program does that is visible outside the
    interpreter, in program order.  Sleeps are in milliseconds. *)
Inductive event : Type :=
| EOpen (bus : Z) (r : sysres Z)
| EClose (fd : Z)
| EIoctl (fd request arg : Z) (r : sysres unit)
| ESignal
| EAlarm (seconds : Z)
| ERead (fd : Z) (number : nat) (r : io bytes)
| EWrite (fd : Z) (buf : bytes) (r : io nat)
| EPrint (l : line)
| ESleep (ms : Z).

(** Disposition of SIGALRM. *)
Inductive sighandler : Type :=
| SIG_DFL
| HandleTimeout.

(** ** The object and the machine state *)

Record SMBasic : Type := {
  mux : option Z;
  channel : option bytes;
  verbose : bool;
  _device : option Z;
  _locked : bool
}.

(** Attributes before [__init__] has run: [_locked] is the class
    attribute of [Lockable]; the others are placeholders that
    [__init__] overwrites before any read. *)
Definition fresh_object : SMBasic :=
  {| mux := None; channel := None; verbose := false;
     _device := None; _locked := false |}.

Definition set_mux (v : option Z) (o : SMBasic) : SMBasic :=
  {| mux := v; channel := channel o; verbose := verbose o;
     _device := _device o; _locked := _locked o |}.
Definition set_channel (v : option bytes) (o : SMBasic) : SMBasic :=
  {| mux := mux o; channel := v; verbose := verbose o;
     _device := _device o; _locked := _locked o |}.
Definition set_verbose (v : bool) (o : SMBasic) : SMBasic :=
  {| mux := mux o; channel := channel o; verbose := v;
     _device := _device o; _locked := _locked o |}.
Definition set_device (v : option Z) (o : SMBasic) : SMBasic :=
  {| mux := mux o; channel := channel o; verbose := verbose o;
     _device := v; _locked := _locked o |}.
Definition set_locked (v : bool) (o : SMBasic) : SMBasic :=
  {| mux := mux o; channel := channel o; verbose := verbose o;
     _device := _device o; _locked := v |}.

(** How a call ends. *)
Inductive outcome (A : Type) : Type :=
| Returns (a : A)
| Raises (e : exn)
| NoReturn
| OutOfFuel.
Arguments Returns {A} a.
Arguments Raises {A} e.
Arguments NoReturn {A}.
Arguments OutOfFuel {A}.

Section Machine.

Context {K : Type} (kernel : Kernel K).

Record State : Type := {
  self : SMBasic;
  sigalrm : sighandler;
  alarm : option Z;
  kstate : K;
  trace : list event
}.

Definition with_self (o : SMBasic) (s : State) : State :=
  {| self := o; sigalrm := sigalrm s; alarm := alarm s;
     kstate := kstate s; trace := trace s |}.
Definition with_sigalrm (h : sighandler) (s : State) : State :=
  {| self := self s; sigalrm := h; alarm := alarm s;
     kstate := kstate s; trace := trace s |}.
Definition with_alarm (a : option Z) (s : State) : State :=
  {| self := self s; sigalrm := sigalrm s; alarm := a;
     kstate := kstate s; trace := trace s |}.
Definition with_kstate (k : K) (s : State) : State :=
  {| self := self s; sigalrm := sigalrm s; alarm := alarm s;
     kstate := k; trace := trace s |}.
Definition with_trace (t : list event) (s : State) : State :=
  {| self := self s; sigalrm := sigalrm s; alarm := alarm s;
     kstate := kstate s; trace := t |}.

(** A process that has just started: no handler, no alarm, nothing
    done yet, and an object on which [__init__] has not run. *)
Definition boot (k : K) : State :=
  {| self := fresh_object; sigalrm := SIG_DFL; alarm := None;
     kstate := k; trace := [] |}.

(** ** The monad *)

Definition M (A : Type) : Type := State -> outcome A * State.

Definition ret {A} (a : A) : M A := fun s => (Returns a, s).
Definition raise {A} (e : exn) : M A := fun s => (Raises e, s).
Definition out_of_fuel {A} : M A := fun s => (OutOfFuel, s).

Definition bind {A B} (m : M A) (f : A -> M B) : M B := fun s =>
  match m s with
  | (Returns a, s1) => f a s1
  | (Raises e, s1) => (Raises e, s1)
  | (NoReturn, s1) => (NoReturn, s1)
  | (OutOfFuel, s1) => (OutOfFuel, s1)
  end.

Notation "x <- m ;; k" := (bind m (fun x => k))
  (at level 61, m at next level, right associativity).
Notation "m ;; k" := (bind m (fun _ => k))
  (at level 61, right associativity).

Definition when (b : bool) (m : M unit) : M unit :=
  if b then m else ret tt.

Definition lift {A} (r : pyres A) : M A :=
  match r with
  | Value a => ret a
  | Error e => raise e
  end.

(** [assert cond, msg] *)
Definition assert_ (cond : bool) (msg : string) : M unit :=
  if cond then ret tt else raise (AssertionError msg).

Definition get_self : M SMBasic := fun s => (Returns (self s), s).
Definition modify_self (f : SMBasic -> SMBasic) : M unit :=
  fun s => (Returns tt, with_self (f (self s)) s).

Definition emit (e : event) : M unit :=
  fun s => (Returns tt, with_trace (trace s ++ [e]) s).

Definition print (l : line) : M unit := emit (EPrint l).

(** [time.sleep(ms / 1000)] *)
Definition sleep (ms : Z) : M unit := emit (ESleep ms).

(** [signal.signal(signal.SIGALRM, handle_timeout)], called from the
    main thread of a single-threaded process. *)
Definition signal_signal (h : sighandler) : M unit :=
  fun s => (Returns tt,
            with_trace (trace s ++ [ESignal]) (with_sigalrm h s)).

(** [signal.alarm(t)]: a non-zero [t] replaces the pending alarm, zero
    cancels it. *)
Definition signal_alarm (t : Z) : M unit :=
  fun s => (Returns tt,
            with_trace (trace s ++ [EAlarm t])
              (with_alarm (if t =? 0 then None else Some t) s)).

(** The alarm goes off while a transfer is stalled: [handle_timeout]
    runs and raises inside the blocked call.  With no alarm pending
    the call stays blocked; with the default disposition the process
    is terminated.  Either way nothing comes back.  Time is not
    measured: a transfer that comes back is taken to do so before the
    deadline, so the alarm goes off nowhere else. *)
Definition deliver_sigalrm {A} : M A := fun s =>
  match alarm s, sigalrm s with
  | Some _, HandleTimeout => (Raises TimeoutException, with_alarm None s)
  | _, _ => (NoReturn, s)
  end.

(** [open(f"/dev/i2c-{bus}", "r+b", buffering=0)] *)
Definition builtin_open (bus : Z) : M Z := fun s =>
  let '(r, k) := sys_open kernel bus (kstate s) in
  let s1 := with_trace (trace s ++ [EOpen bus r]) (with_kstate k s) in
  match r with
  | Ok fd => (Returns fd, s1)
  | Errno e => (Raises (OSError e), s1)
  end.

(** [f.close()] *)
Definition file_close (fd : Z) : M unit := fun s =>
  (Returns tt,
   with_trace (trace s ++ [EClose fd])
     (with_kstate (sys_close kernel fd (kstate s)) s)).

(** [self._device.fileno()] *)
Definition fileno : M Z := fun s =>
  match _device (self s) with
  | Some fd => (Returns fd, s)
  | None => (Raises AttributeError, s)
  end.

(** [fcntl.ioctl(fd, request, arg)] *)
Definition ioctl (fd request arg : Z) : M unit := fun s =>
  let '(r, k) := sys_ioctl kernel fd request arg (kstate s) in
  let s1 := with_trace (trace s ++ [EIoctl fd request arg r])
              (with_kstate k s) in
  match r with
  | Ok _ => (Returns tt, s1)
  | Errno e => (Raises (OSError e), s1)
  end.

(** [self._device.read(number)] on the unbuffered file. *)
Definition device_read (number : nat) : M bytes :=
  fd <- fileno ;;
  fun s =>
    let '(r, k) := sys_read kernel fd number (kstate s) in
    let s1 := with_trace (trace s ++ [ERead fd number r])
                (with_kstate k s) in
    match r with
    | Done b => (Returns b, s1)
    | Fault e => (Raises (OSError e), s1)
    | Stalled => deliver_sigalrm s1
    end.

(** [self._device.write(buf)] *)
Definition device_write (buf : bytes) : M nat :=
  fd <- fileno ;;
  fun s =>
    let '(r, k) := sys_write kernel fd buf (kstate s) in
    let s1 := with_trace (trace s ++ [EWrite fd buf r])
                (with_kstate k s) in
    match r with
    | Done n => (Returns n, s1)
    | Fault e => (Raises (OSError e), s1)
    | Stalled => deliver_sigalrm s1
    end.

(** [try: body / except ...: handler].  [handlers e] is the first
    matching [except] clause, if any. *)
Definition try_except {A} (body : M A) (handlers : exn -> option (M A))
  : M A := fun s =>
  match body s with
  | (Raises e, s1) =>
      match handlers e with
      | Some h => h s1
      | None => (Raises e, s1)
      end
  | r => r
  end.

(** [try: body / finally: fin].  The [finally] block runs when the
    body returns and when it raises; its own outcome wins only if it
    is not a normal one. *)
Definition try_finally {A} (body : M A) (fin : M unit) : M A := fun s =>
  match body s with
  | (Returns a, s1) =>
      match fin s1 with
      | (Returns _, s2) => (Returns a, s2)
      | (Raises e, s2) => (Raises e, s2)
      | (NoReturn, s2) => (NoReturn, s2)
      | (OutOfFuel, s2) => (OutOfFuel, s2)
      end
  | (Raises e, s1) =>
      match fin s1 with
      | (Returns _, s2) => (Raises e, s2)
      | (Raises e', s2) => (Raises e', s2)
      | (NoReturn, s2) => (NoReturn, s2)
      | (OutOfFuel, s2) => (OutOfFuel, s2)
      end
  | (NoReturn, s1) => (NoReturn, s1)
  | (OutOfFuel, s1) => (OutOfFuel, s1)
  end.

(** [while cond: body], at most [fuel] evaluations of the condition. *)
Fixpoint while_ (fuel : nat) (cond : M bool) (body : M unit) : M unit :=
  match fuel with
  | O => out_of_fuel
  | S n => b <- cond ;; if b then body ;; while_ n cond body else ret tt
  end.

(** ** class Lockable

    Its base class [ContextManaged] contributes nothing here: [SMBasic]
    overrides [__enter__] and [__exit__] and never calls [deinit]. *)

Definition try_lock : M bool :=
  o <- get_self ;;
  if _locked o then ret false
  else modify_self (set_locked true) ;; ret true.

Definition unlock : M unit :=
  o <- get_self ;;
  if _locked o then modify_self (set_locked false) else ret tt.

(** ** class SMBasic *)

Definition close : M unit :=
  o <- get_self ;;
  match _device o with
  | Some fd => file_close fd ;; modify_self (set_device None)
  | None => ret tt
  end.

Definition open (bus : Z) : M unit :=
  o <- get_self ;;
  match _device o with
  | Some _ => close
  | None => ret tt
  end ;;
  f <- builtin_open bus ;;
  modify_self (set_device (Some f)).

(** The constructor.  The lock object [threading.RLock()] it stores
    last is used by no method and is left out. *)
Definition __init__ (bus : Z) (mux channel : option Z) (verbose : bool)
  : M unit :=
  assert_
    (negb (xorb (is_not_None mux) (is_not_None channel)))
    EmptyString ;;
  modify_self (set_mux mux) ;;
  mask <- match channel with
          | Some c =>
              v <- lift (lshift 1 c) ;;
              b <- lift (bytearray_of_ints [v]) ;;
              ret (Some b)
          | None => ret None
          end ;;
  modify_self (set_channel mask) ;;
  modify_self (set_verbose verbose) ;;
  modify_self (set_device None) ;;
  open bus.


Definition _select_device (addr : Z) (verbose : bool) : M unit :=
  when verbose (print (SelectingDevice addr)) ;;
  fd <- fileno ;;
  ioctl fd _I2C_DEVICE (Z.land addr 0x7F).

(** [number] is a payload length (docstring of the method).  The
    [try] body yields [Some result] for [return result]; the handlers
    fall through to the statement after the [try], which is [None]. *)
Definition read_bytes (addr : Z) (number : nat) : M bytes :=
  o <- get_self ;;
  assert_ (is_not_None (_device o)) not_open_msg ;;
  _select_device addr (verbose o) ;;
  signal_signal HandleTimeout ;;
  signal_alarm _I2C_TIMEOUT ;;
  r <- try_finally
         (try_except
            (result <- device_read number ;;
             when (verbose o) (print (ReadBytesLine result)) ;;
             ret (Some result))
            (fun e =>
               match e with
               | TimeoutException =>
                   Some (print (FailedReadLine addr (mux o) (channel o)) ;;
                         ret None)
               | OSError en =>
                   Some (print (IOErrorReadLine (mux o) (channel o) en) ;;
                         ret None)
               | _ => None
               end))
         (signal_alarm 0) ;;
  match r with
  | Some result => ret result
  | None => ret (bytearray_zeros number)
  end.

Definition write_bytes (addr : Z) (buf : bytes) (verbose : bool) : M unit :=
  o <- get_self ;;
  assert_ (is_not_None (_device o)) not_open_msg ;;
  _select_device addr verbose ;;
  when verbose (print (WritingBytesLine buf)) ;;
  signal_signal HandleTimeout ;;
  signal_alarm _I2C_TIMEOUT ;;
  try_finally
    (try_except
       (_ <- device_write buf ;; ret tt)
       (fun e =>
          match e with
          | TimeoutException =>
              Some (print (FailedWriteLine addr (mux o) (channel o)))
          | OSError en =>
              Some (print (IOErrorWriteLine (mux o) (channel o) en))
          | _ => None
          end))
    (signal_alarm 0).

(** The loop condition of [__enter__] and [__exit__]:
    [ord(self.read_bytes(addr=m, number=1)).to_bytes(1, 'big') != target] *)
Definition mux_disagrees (m : Z) (target : bytes) : M bool :=
  r <- read_bytes m 1 ;;
  v <- lift (ord r) ;;
  b <- lift (to_bytes_big v 1) ;;
  ret (negb (bytes_eqb b target)).

(** No method assigns [mux], [channel] or [verbose] after [__init__],
    so the values read at the guard stand for the later reads of the
    same attributes inside the loop.  Returning [self] is left
    implicit. *)
Definition __enter__ (fuel : nat) : M unit :=
  o <- get_self ;;
  match mux o, channel o with
  | Some m, Some c =>
      write_bytes m c (verbose o) ;;
      while_ fuel (mux_disagrees m c)
        (sleep 50 ;;
         write_bytes m c (verbose o))
  | _, _ => ret tt
  end.

(** [exc] stands for the triple [(exc_type, exc_val, exc_tb)]: [None]
    when the body finished, the exception when it raised. *)
Definition __exit__ (fuel : nat) (exc : option exn) : M bool :=
  o <- get_self ;;
  match mux o, channel o with
  | Some m, Some _ =>
      write_bytes 0x70 _MUX_UNLOCK_REGISTER (verbose o) ;;
      while_ fuel (mux_disagrees m [x00])
        (sleep 50 ;;
         write_bytes m [x00] (verbose o))
  | _, _ => ret tt
  end ;;
  close ;;
  ret false.

(** ** The [with] statement

    [with obj: body], for the object in the state: [__enter__], the
    body, then [__exit__] with the body's exception if it raised one;
    the exception is re-raised unless [__exit__] returns a true value,
    in which case the statement finishes without a value. *)
Definition with_ {A} (fuel : nat) (body : M A) : M (option A) :=
  __enter__ fuel ;;
  fun s =>
    match body s with
    | (Returns a, s1) => (__exit__ fuel None ;; ret (Some a)) s1
    | (Raises e, s1) =>
        (b <- __exit__ fuel (Some e) ;;
         if b then ret None else raise e) s1
    | (NoReturn, s1) => (NoReturn, s1)
    | (OutOfFuel, s1) => (OutOfFuel, s1)
    end.

End Machine.

Notation "x <- m ;; k" := (bind m (fun x => k))
  (at level 61, m at next level, right associativity).
Notation "m ;; k" := (bind m (fun _ => k))
  (at level 61, right associativity).

(** ** Vocabulary for stating what a call did *)

(** The value [read_bytes] hands to its caller for a given behaviour
    of the transfer. *)
Definition read_value (number : nat) (r : io bytes) : bytes :=
  match r with
  | Done b => b
  | Fault _ => bytearray_zeros number
  | Stalled => bytearray_zeros number
  end.

(** A transfer that did not complete. *)
Definition transfer_failed {A} (r : io A) : bool :=
  match r with
  | Done _ => false
  | Fault _ => true
  | Stalled => true
  end.

(** Events of [_select_device]. *)
Definition select_events (fd addr : Z) (verbose : bool) (r : sysres unit)
  : list event :=
  (if verbose then [EPrint (SelectingDevice addr)] else [])
  ++ [EIoctl fd _I2C_DEVICE (Z.land addr 0x7F) r].

(** The line a read prints once the transfer is over. *)
Definition read_report (o : SMBasic) (addr : Z) (r : io bytes)
  : list event :=
  match r with
  | Done b => if verbose o then [EPrint (ReadBytesLine b)] else []
  | Fault e => [EPrint (IOErrorReadLine (mux o) (channel o) e)]
  | Stalled => [EPrint (FailedReadLine addr (mux o) (channel o))]
  end.

Definition write_report (o : SMBasic) (addr : Z) (r : io nat)
  : list event :=
  match r with
  | Done _ => []
  | Fault e => [EPrint (IOErrorWriteLine (mux o) (channel o) e)]
  | Stalled => [EPrint (FailedWriteLine addr (mux o) (channel o))]
  end.

(** Events of a [read_bytes] whose address selection went through. *)
Definition read_events (o : SMBasic) (fd addr : Z) (number : nat)
  (r : io bytes) : list event :=
  select_events fd addr (verbose o) (Ok tt)
  ++ [ESignal; EAlarm _I2C_TIMEOUT; ERead fd number r]
  ++ read_report o addr r
  ++ [EAlarm 0].

(** Events of a [write_bytes] whose address selection went through. *)
Definition write_events (o : SMBasic) (fd addr : Z) (buf : bytes)
  (verbose : bool) (r : io nat) : list event :=
  select_events fd addr verbose (Ok tt)
  ++ (if verbose then [EPrint (WritingBytesLine buf)] else [])
  ++ [ESignal; EAlarm _I2C_TIMEOUT; EWrite fd buf r]
  ++ write_report o addr r
  ++ [EAlarm 0].

(** The part of a trace that reaches the bus or spends time: address
    selections, transfers and sleeps. *)
Definition on_bus (e : event) : bool :=
  match e with
  | EIoctl _ _ _ _ => true
  | ERead _ _ _ => true
  | EWrite _ _ _ => true
  | ESleep _ => true
  | _ => false
  end.

Definition bus_view (t : list event) : list event := filter on_bus t.

(** Selecting [addr] and writing [buf] to it, as seen on the bus. *)
Definition bus_write (fd addr : Z) (buf : bytes) (w : io nat)
  : list event :=
  [EIoctl fd _I2C_DEVICE (Z.land addr 0x7F) (Ok tt); EWrite fd buf w].

(** Selecting [addr] and reading [number] bytes from it. *)
Definition bus_read (fd addr : Z) (number : nat) (r : io bytes)
  : list event :=
  [EIoctl fd _I2C_DEVICE (Z.land addr 0x7F) (Ok tt); ERead fd number r].

(** One unsuccessful poll of the mux at [m]: a 1-byte read, a 50 ms
    sleep, and [buf] written again. *)
Definition retry_round (fd m : Z) (buf : bytes) (rw : io bytes * io nat)
  : list event :=
  bus_read fd m 1 (fst rw) ++ [ESleep 50] ++ bus_write fd m buf (snd rw).

(** The poll read one byte and it is not [target]. *)
Definition poll_miss (target : bytes) (r : io bytes) : Prop :=
  length (read_value 1 r) = 1%nat /\ read_value 1 r <> target.

(** The poll read [target]. *)
Definition poll_hit (target : bytes) (r : io bytes) : Prop :=
  read_value 1 r = target.

(** How an exception cuts a poll loop short, with the bus events of
    the round it interrupts: the kernel refuses the address selection
    of the read, the read yields something [ord] rejects, or the
    kernel refuses the address selection of the repeated write. *)
Inductive poll_abort (fd m : Z) (target : bytes)
  : exn -> list event -> Prop :=
| abort_read_select en :
    poll_abort fd m target (OSError en)
      [EIoctl fd _I2C_DEVICE (Z.land m 0x7F) (Errno en)]
| abort_ord r :
    length (read_value 1 r) <> 1%nat ->
    poll_abort fd m target TypeError (bus_read fd m 1 r)
| abort_write_select r en :
    poll_miss target r ->
    poll_abort fd m target (OSError en)
      (bus_read fd m 1 r
       ++ [ESleep 50; EIoctl fd _I2C_DEVICE (Z.land m 0x7F) (Errno en)]).

(** An outcome without its value. *)
Definition void {A} (o : outcome A) : outcome unit :=
  match o with
  | Returns _ => Returns tt
  | Raises e => Raises e
  | NoReturn => NoReturn
  | OutOfFuel => OutOfFuel
  end.

(** Events that neither move data on the bus nor touch the alarm. *)
Definition quiet (e : event) : bool :=
  match e with
  | ERead _ _ _ => false
  | EWrite _ _ _ => false
  | EAlarm _ => false
  | _ => true
  end.

(** The event is a read that yields [target]. *)
Definition hits (target : bytes) (e : event) : Prop :=
  match e with
  | ERead _ _ r => poll_hit target r
  | _ => False
  end.

(** What the bus sees of a handshake with the mux that is given at
    most [fuel] polls: [target] written to address [a0], then polls of
    address [m], each miss followed by 50 ms of sleep and [target]
    written to [m] again.  The handshake returns on the first poll
    that reads [target]; it is still going on after [fuel] misses; an
    exception cuts it short at the first write or inside a round. *)
Definition handshake_view (fd a0 m : Z) (target : bytes) (fuel : nat)
  (out : outcome unit) (view : list event) : Prop :=
  match out with
  | Returns _ =>
      exists w rws r,
        Forall (fun rw => poll_miss target (fst rw)) rws /\
        (length rws < fuel)%nat /\
        poll_hit target r /\
        view = bus_write fd a0 target w
               ++ flat_map (retry_round fd m target) rws
               ++ bus_read fd m 1 r
  | Raises e =>
      (exists en,
         e = OSError en /\
         view = [EIoctl fd _I2C_DEVICE (Z.land a0 0x7F) (Errno en)])
      \/
      (exists w rws tail,
         Forall (fun rw => poll_miss target (fst rw)) rws /\
         (length rws < fuel)%nat /\
         poll_abort fd m target e tail /\
         view = bus_write fd a0 target w
                ++ flat_map (retry_round fd m target) rws
                ++ tail)
  | NoReturn => False
  | OutOfFuel =>
      exists w rws,
        Forall (fun rw => poll_miss target (fst rw)) rws /\
        length rws = fuel /\
        view = bus_write fd a0 target w
               ++ flat_map (retry_round fd m target) rws
  end.

(** ** What a client may do between two uses of the lock

    Every method of the class except [unlock].  A client goes on after
    a call whatever its outcome, so only the state a call leaves
    matters here. *)
Inductive call : Type :=
| CallTryLock
| CallOpen (bus : Z)
| CallClose
| CallReadBytes (addr : Z) (number : nat)
| CallWriteBytes (addr : Z) (buf : bytes) (verbose : bool)
| CallEnter (fuel : nat)
| CallExit (fuel : nat) (exc : option exn).

Definition after_call {K} (kernel : Kernel K) (c : call) (s : @State K)
  : @State K :=
  match c with
  | CallTryLock => snd (try_lock s)
  | CallOpen bus => snd (open kernel bus s)
  | CallClose => snd (close kernel s)
  | CallReadBytes addr number => snd (read_bytes kernel addr number s)
  | CallWriteBytes addr buf verbose =>
      snd (write_bytes kernel addr buf verbose s)
  | CallEnter fuel => snd (__enter__ kernel fuel s)
  | CallExit fuel exc => snd (__exit__ kernel fuel exc s)
  end.

Definition after_calls {K} (kernel : Kernel K) (cs : list call)
  (s : @State K) : @State K :=
  fold_left (fun st c => after_call kernel c st) cs s.

(** A computation that leaves the lock flag as it found it. *)
Definition keeps_lock {K A} (m : @M K A) : Prop :=
  forall s, _locked (self (snd (m s))) = _locked (self s).

(** ** A bench kernel

    A device on the bench for running the model: bus numbers from 0 up
    exist and open as descriptor 3, selecting the address [busy] (one
    a kernel driver owns) fails with EBUSY, reads follow a script and
    stall once it is exhausted, writes follow a script and are
    accepted whole once it is exhausted. *)
Module Bench.

Record state : Type := {
  script : list (io bytes);
  wscript : list (io nat);
  busy : option Z
}.

Definition ENOENT : Z := 2.
Definition EBUSY : Z := 16.
Definition EREMOTEIO : Z := 121.

Definition kernel : Kernel state := {|
  sys_open := fun bus k =>
    (if 0 <=? bus then Ok 3 else Errno ENOENT, k);
  sys_close := fun _ k => k;
  sys_ioctl := fun _ _ arg k =>
    (match busy k with
     | Some a => if arg =? a then Errno EBUSY else Ok tt
     | None => Ok tt
     end, k);
  sys_read := fun _ _ k =>
    match script k with
    | [] => (Stalled, k)
    | r :: tl => (r, {| script := tl; wscript := wscript k; busy := busy k |})
    end;
  sys_write := fun _ buf k =>
    match wscript k with
    | [] => (Done (length buf), k)
    | w :: tl => (w, {| script := script k; wscript := tl; busy := busy k |})
    end
|}.

(** A bench with the given read script, writes that succeed, and a
    free bus. *)
Definition free (reads : list (io bytes)) : state :=
  {| script := reads; wscript := []; busy := None |}.

(** A bench on which no transfer completes: reads stall, the first
    write fails with EREMOTEIO. *)
Definition dead : state :=
  {| script := []; wscript := [Fault EREMOTEIO]; busy := None |}.

(** A bench on which a kernel driver owns address [0x70], with the
    given read script. *)
Definition claimed (reads : list (io bytes)) : state :=
  {| script := reads; wscript := []; busy := Some 0x70 |}.

(** The session [SMBasic(1, mux, channel)] built in a process that
    has just started on the bench [k]. *)
Definition session (k : state) (mux channel : option Z) : State :=
  snd (__init__ kernel 1 mux channel false (boot k)).

End Bench.

(** A mux that answers every read with the byte written last. *)
Module EchoMux.

Definition kernel : Kernel bytes := {|
  sys_open := fun _ k => (Ok 3, k);
  sys_close := fun _ k => k;
  sys_ioctl := fun _ _ _ k => (Ok tt, k);
  sys_read := fun _ number k => (Done (firstn number k), k);
  sys_write := fun _ buf _ => (Done (length buf), buf)
|}.

End EchoMux.

(** ** Further vocabulary

    The configuration of a session: what [__init__] stores and the
    transfers and handshakes read. *)
Definition config (o : SMBasic) : option Z * option bytes * bool :=
  (mux o, channel o, verbose o).

(** A computation that leaves the part [p] of the object as it found
    it. *)
Definition keeps {K A X} (p : SMBasic -> X) (m : @M K A) : Prop :=
  forall s, p (self (snd (m s))) = p (self s).

(** Any method of the class, [unlock] included. *)
Inductive method : Type :=
| Method (c : call)
| MethodUnlock.

Definition after_method {K} (kernel : Kernel K) (c : method) (s : @State K)
  : @State K :=
  match c with
  | Method c => after_call kernel c s
  | MethodUnlock => snd (unlock s)
  end.

Definition after_methods {K} (kernel : Kernel K) (cs : list method)
  (s : @State K) : @State K :=
  fold_left (fun st c => after_method kernel c st) cs s.

(** Lines printed only in verbose mode. *)
Definition chatter (e : event) : bool :=
  match e with
  | EPrint (SelectingDevice _) => true
  | EPrint (ReadBytesLine _) => true
  | EPrint (WritingBytesLine _) => true
  | _ => false
  end.

(** A trace without its verbose lines. *)
Definition hush (t : list event) : list event :=
  filter (fun e => negb (chatter e)) t.

(** The same state in quiet mode: [verbose] off and the verbose lines
    taken out of what has been printed. *)
Definition mute {K} (s : @State K) : @State K :=
  with_trace (hush (trace s)) (with_self (set_verbose false (self s)) s).

(** [m'] does on the state [g s] what [m] does on [s], seen through
    [g]: the same outcome, and [g] of the final state. *)
Definition transports {K A} (g : @State K -> @State K) (m m' : @M K A)
  : Prop :=
  forall s, m' (g s) = (fst (m s), g (snd (m s))).

(** [m'] does on a muted state what [m] does on the state itself,
    minus the verbose lines. *)
Definition muted {K A} (m m' : @M K A) : Prop := transports mute m m'.

(** The same state with the lock flag set to [b]. *)
Definition relock {K} (b : bool) (s : @State K) : @State K :=
  with_self (set_locked b (self s)) s.

(** ** Descriptor discipline *)

(** A use of descriptor [fd] while [cur] is the one held. *)
Definition held (cur : option Z) (fd : Z) : bool :=
  match cur with
  | Some fd' => fd =? fd'
  | None => false
  end.

(** Follows the descriptor through a trace, from the one held at its
    start ([cur]) to the one held at its end.  [None] when the trace
    breaks the discipline: a bus opened while a descriptor is held
    (the old one would leak), or a close, an ioctl, a read or a write
    on a descriptor that is not the one held. *)
Fixpoint descriptors (t : list event) (cur : option Z)
  : option (option Z) :=
  match t with
  | [] => Some cur
  | EOpen _ (Ok fd) :: t' =>
      match cur with
      | None => descriptors t' (Some fd)
      | Some _ => None
      end
  | EClose fd :: t' =>
      if held cur fd then descriptors t' None else None
  | EIoctl fd _ _ _ :: t' =>
      if held cur fd then descriptors t' cur else None
  | ERead fd _ _ :: t' =>
      if held cur fd then descriptors t' cur else None
  | EWrite fd _ _ :: t' =>
      if held cur fd then descriptors t' cur else None
  | _ :: t' => descriptors t' cur
  end.

(** The trace so far keeps the discipline and the descriptor it ends
    with is the one the object holds. *)
Definition disciplined {K} (s : @State K) : Prop :=
  descriptors (trace s) None = Some (_device (self s)).

Definition stable {K A} (m : @M K A) : Prop :=
  forall s, disciplined s -> disciplined (snd (m s)).

(** ** The trace and the kernel *)

(** The system calls recorded in [t] are the calls made, in that
    order, on a kernel that starts in state [k]: each recorded result
    is the one the kernel gives at that point, and the calls take the
    kernel to [k'].  Prints, sleeps and signal calls do not reach the
    device. *)
Fixpoint answers {K} (kernel : Kernel K) (t : list event) (k k' : K)
  : Prop :=
  match t with
  | [] => k' = k
  | EOpen bus r :: t' =>
      fst (sys_open kernel bus k) = r /\
      answers kernel t' (snd (sys_open kernel bus k)) k'
  | EClose fd :: t' => answers kernel t' (sys_close kernel fd k) k'
  | EIoctl fd request arg r :: t' =>
      fst (sys_ioctl kernel fd request arg k) = r /\
      answers kernel t' (snd (sys_ioctl kernel fd request arg k)) k'
  | ERead fd number r :: t' =>
      fst (sys_read kernel fd number k) = r /\
      answers kernel t' (snd (sys_read kernel fd number k)) k'
  | EWrite fd buf r :: t' =>
      fst (sys_write kernel fd buf k) = r /\
      answers kernel t' (snd (sys_write kernel fd buf k)) k'
  | _ :: t' => answers kernel t' k k'
  end.

(** What [m] adds to the trace accounts for what it did to the
    kernel. *)
Definition accounted {K A} (kernel : Kernel K) (m : @M K A) : Prop :=
  forall s, exists t,
    trace (snd (m s)) = trace s ++ t /\
    answers kernel t (kstate s) (kstate (snd (m s))).

(** A mux whose control register stays at the mask of channel 2
    whatever is written to it.  The state is the number of address
    selections the bus still accepts before a kernel driver takes the
    addresses over ([None]: no driver ever does); from then on every
    selection fails with EBUSY. *)
Module Latched.

Definition EBUSY : Z := 16.

Definition kernel : Kernel (option nat) := {|
  sys_open := fun _ k => (Ok 3, k);
  sys_close := fun _ k => k;
  sys_ioctl := fun _ _ _ k =>
    match k with
    | None => (Ok tt, None)
    | Some (S n) => (Ok tt, Some n)
    | Some O => (Errno EBUSY, Some O)
    end;
  sys_read := fun _ number k => (Done (repeat x04 number), k);
  sys_write := fun _ buf k => (Done (length buf), k)
|}.

(** The session [SMBasic(1, 0x70, 2)] on such a bus. *)
Definition session (k : option nat) : State :=
  snd (__init__ kernel 1 (Some 0x70) (Some 2) false (boot k)).

End Latched.

(** * Properties *)

Section Properties.

Context {K : Type} (kernel : Kernel K).

Implicit Types (s : @State K) (o : SMBasic).

(** ** Running the primitives *)

Ltac unfold_prims :=
  cbv beta delta
    [bind ret raise when lift assert_ get_self modify_self emit print
     sleep signal_signal signal_alarm deliver_sigalrm fileno ioctl
     device_read device_write file_close builtin_open try_except
     try_finally out_of_fuel].

Ltac step :=
  cbn [self sigalrm alarm kstate trace with_trace with_alarm
       with_sigalrm with_kstate with_self is_not_None
       mux channel verbose _device _locked
       set_mux set_channel set_verbose set_device set_locked].

Ltac flatten_trace :=
  unfold read_events, write_events, select_events, read_report,
    write_report;
  step;
  repeat rewrite <- app_assoc;
  cbn [app].

Lemma write_bytes_run s fd addr buf v :
  _device (self s) = Some fd ->
  write_bytes kernel addr buf v s =
  match sys_ioctl kernel fd _I2C_DEVICE (Z.land addr 0x7F) (kstate s) with
  | (Errno e, k1) =>
      (Raises (OSError e),
       with_trace (trace s ++ select_events fd addr v (Errno e))
         (with_kstate k1 s))
  | (Ok _, k1) =>
      let '(r, k2) := sys_write kernel fd buf k1 in
      (Returns tt,
       {| self := self s; sigalrm := HandleTimeout; alarm := None;
          kstate := k2;
          trace := trace s ++ write_events (self s) fd addr buf v r |})
  end.
Proof.
  intros Hdev.
  unfold write_bytes, _select_device.
  set (a := Z.land addr 0x7F).
  unfold_prims. step. rewrite Hdev. step.
  destruct v; step; rewrite ?Hdev; step;
    destruct (sys_ioctl kernel fd _I2C_DEVICE a (kstate s))
      as [[[]|e] k1];
    step; rewrite ?Hdev; step;
    try (flatten_trace; reflexivity);
    change (_I2C_TIMEOUT =? 0) with false;
    change (0 =? 0) with true;
    destruct (sys_write kernel fd buf k1) as [[n|e|] k2];
    step; flatten_trace; reflexivity.
Qed.

Lemma write_bytes_closed s addr buf v :
  _device (self s) = None ->
  write_bytes kernel addr buf v s = (Raises (AssertionError not_open_msg), s).
Proof.
  intros Hdev. unfold write_bytes. unfold_prims. step. rewrite Hdev. reflexivity.
Qed.

Lemma read_bytes_run s fd addr number :
  _device (self s) = Some fd ->
  read_bytes kernel addr number s =
  match sys_ioctl kernel fd _I2C_DEVICE (Z.land addr 0x7F) (kstate s) with
  | (Errno e, k1) =>
      (Raises (OSError e),
       with_trace
         (trace s ++ select_events fd addr (verbose (self s)) (Errno e))
         (with_kstate k1 s))
  | (Ok _, k1) =>
      let '(r, k2) := sys_read kernel fd number k1 in
      (Returns (read_value number r),
       {| self := self s; sigalrm := HandleTimeout; alarm := None;
          kstate := k2;
          trace := trace s ++ read_events (self s) fd addr number r |})
  end.
Proof.
  intros Hdev.
  unfold read_bytes, _select_device.
  set (a := Z.land addr 0x7F).
  unfold_prims. step. rewrite Hdev. step.
  destruct (verbose (self s)) eqn:Hv; step; rewrite ?Hdev; step;
    destruct (sys_ioctl kernel fd _I2C_DEVICE a (kstate s))
      as [[[]|e] k1];
    step; rewrite ?Hdev; step;
    try (flatten_trace; rewrite ?Hv; reflexivity);
    change (_I2C_TIMEOUT =? 0) with false;
    change (0 =? 0) with true;
    destruct (sys_read kernel fd number k1) as [[b|e|] k2];
    step; flatten_trace; rewrite ?Hv; reflexivity.
Qed.

Lemma read_bytes_closed s addr number :
  _device (self s) = None ->
  read_bytes kernel addr number s = (Raises (AssertionError not_open_msg), s).
Proof.
  intros Hdev. unfold read_bytes. unfold_prims. step. rewrite Hdev. reflexivity.
Qed.

(** ** The bus view of a call *)

Lemma bus_view_app t1 t2 : bus_view (t1 ++ t2) = bus_view t1 ++ bus_view t2.
Proof. apply filter_app. Qed.

Lemma bus_view_read_events o fd addr number r :
  bus_view (read_events o fd addr number r) = bus_read fd addr number r.
Proof.
  unfold read_events, select_events, read_report.
  destruct (verbose o), r; reflexivity.
Qed.

Lemma bus_view_write_events o fd addr buf v w :
  bus_view (write_events o fd addr buf v w) = bus_write fd addr buf w.
Proof.
  unfold write_events, select_events, write_report.
  destruct v, w; reflexivity.
Qed.

Lemma bus_view_select_refused fd addr v en :
  bus_view (select_events fd addr v (Errno en)) =
  [EIoctl fd _I2C_DEVICE (Z.land addr 0x7F) (Errno en)].
Proof. destruct v; reflexivity. Qed.

(** ** Polling the mux *)

Lemma to_bytes_ord b : to_bytes_big (Z_of_byte b) 1 = Value [b].
Proof. destruct b; reflexivity. Qed.

Lemma bytes_eqb_eq a b : bytes_eqb a b = true <-> a = b.
Proof.
  unfold bytes_eqb. destruct (list_eq_dec Byte.byte_eq_dec a b); split;
    congruence.
Qed.

Lemma bytes_eqb_neq a b : bytes_eqb a b = false <-> a <> b.
Proof.
  unfold bytes_eqb. destruct (list_eq_dec Byte.byte_eq_dec a b); split;
    congruence.
Qed.

Lemma mux_disagrees_run s fd m target :
  _device (self s) = Some fd ->
  mux_disagrees kernel m target s =
  match sys_ioctl kernel fd _I2C_DEVICE (Z.land m 0x7F) (kstate s) with
  | (Errno e, k1) =>
      (Raises (OSError e),
       with_trace
         (trace s ++ select_events fd m (verbose (self s)) (Errno e))
         (with_kstate k1 s))
  | (Ok _, k1) =>
      let '(r, k2) := sys_read kernel fd 1 k1 in
      let s' :=
        {| self := self s; sigalrm := HandleTimeout; alarm := None;
           kstate := k2;
           trace := trace s ++ read_events (self s) fd m 1 r |} in
      match read_value 1 r with
      | [b] => (Returns (negb (bytes_eqb [b] target)), s')
      | _ => (Raises TypeError, s')
      end
  end.
Proof.
  intros Hdev. unfold mux_disagrees. unfold bind at 1.
  rewrite (read_bytes_run _ _ _ _ Hdev).
  destruct (sys_ioctl kernel fd _I2C_DEVICE (Z.land m 127) (kstate s))
    as [[[]|e] k1]; [|reflexivity].
  destruct (sys_read kernel fd 1 k1) as [r k2].
  destruct (read_value 1 r) as [|b [|b' tl]]; try reflexivity.
  unfold_prims. cbn [ord]. rewrite to_bytes_ord. reflexivity.
Qed.

Lemma while_unfold fuel (cond : M bool) (body : M unit) s :
  while_ (S fuel) cond body s =
  match cond s with
  | (Returns true, s1) =>
      match body s1 with
      | (Returns _, s2) => while_ fuel cond body s2
      | (Raises e, s2) => (Raises e, s2)
      | (NoReturn, s2) => (NoReturn, s2)
      | (OutOfFuel, s2) => (OutOfFuel, s2)
      end
  | (Returns false, s1) => (Returns tt, s1)
  | (Raises e, s1) => (Raises e, s1)
  | (NoReturn, s1) => (NoReturn, s1)
  | (OutOfFuel, s1) => (OutOfFuel, s1)
  end.
Proof.
  cbn [while_]. unfold bind.
  destruct (cond s) as [[[]|e| |] s1]; try reflexivity.
Qed.

Lemma retry_body_run s fd m buf v :
  _device (self s) = Some fd ->
  (sleep 50 ;; write_bytes kernel m buf v) s =
  match sys_ioctl kernel fd _I2C_DEVICE (Z.land m 0x7F) (kstate s) with
  | (Errno e, k1) =>
      (Raises (OSError e),
       with_trace
         (trace s ++ [ESleep 50] ++ select_events fd m v (Errno e))
         (with_kstate k1 s))
  | (Ok _, k1) =>
      let '(w, k2) := sys_write kernel fd buf k1 in
      (Returns tt,
       {| self := self s; sigalrm := HandleTimeout; alarm := None;
          kstate := k2;
          trace := trace s ++ [ESleep 50]
                   ++ write_events (self s) fd m buf v w |})
  end.
Proof.
  intros Hdev. unfold bind, sleep, emit.
  rewrite (write_bytes_run _ fd) by exact Hdev.
  step.
  destruct (sys_ioctl kernel fd _I2C_DEVICE (Z.land m 127) (kstate s))
    as [[[]|e] k1].
  - destruct (sys_write kernel fd buf k1) as [w k2].
    rewrite <- app_assoc. reflexivity.
  - step. rewrite <- app_assoc. reflexivity.
Qed.

Lemma poll_loop_run fuel : forall s fd m target v,
  _device (self s) = Some fd ->
  exists out s' rws t,
    while_ fuel (mux_disagrees kernel m target)
      (sleep 50 ;; write_bytes kernel m target v) s = (out, s') /\
    self s' = self s /\
    trace s' = trace s ++ t /\
    Forall (fun rw => poll_miss target (fst rw)) rws /\
    match out with
    | Returns _ =>
        (length rws < fuel)%nat /\
        exists r, poll_hit target r /\
          bus_view t =
          flat_map (retry_round fd m target) rws ++ bus_read fd m 1 r
    | Raises e =>
        (length rws < fuel)%nat /\
        exists tail, poll_abort fd m target e tail /\
          bus_view t = flat_map (retry_round fd m target) rws ++ tail
    | NoReturn => False
    | OutOfFuel =>
        length rws = fuel /\
        bus_view t = flat_map (retry_round fd m target) rws
    end.
Proof.
  induction fuel as [|fuel IH]; intros s fd m target v Hdev.
  - exists OutOfFuel, s, [], []. cbn. rewrite app_nil_r. repeat split; auto.
  - rewrite while_unfold, (mux_disagrees_run _ fd) by exact Hdev.
    destruct (sys_ioctl kernel fd _I2C_DEVICE (Z.land m 127) (kstate s))
      as [[[]|e] k1] eqn:Hsel.
    + destruct (sys_read kernel fd 1 k1) as [r k2] eqn:Hrd.
      cbv zeta.
      destruct (read_value 1 r) as [|b [|b' tl]] eqn:Hval.
      * eexists (Raises TypeError), _, [], _.
        split; [reflexivity|]. cbn [self trace].
        do 4 (split; [reflexivity || (cbn [length]; lia) || constructor|]).
        exists (bus_read fd m 1 r). split.
        -- apply abort_ord. rewrite Hval. discriminate.
        -- apply bus_view_read_events.
      * destruct (bytes_eqb [b] target) eqn:Heq; cbn [negb].
        -- eexists (Returns tt), _, [], _.
           split; [reflexivity|]. cbn [self trace].
           do 4 (split; [reflexivity || (cbn [length]; lia) || constructor|]).
           exists r. split.
           ++ unfold poll_hit. rewrite Hval. now apply bytes_eqb_eq.
           ++ apply bus_view_read_events.
        -- rewrite (retry_body_run _ fd) by exact Hdev.
           cbn [kstate self trace].
           destruct (sys_ioctl kernel fd _I2C_DEVICE (Z.land m 127) k2)
             as [[[]|e] k3] eqn:Hsel2.
           ++ destruct (sys_write kernel fd target k3) as [w k4] eqn:Hwr.
              match goal with
              | |- context [while_ fuel _ _ ?s2] =>
                  destruct (IH s2 fd m target v Hdev)
                    as (out & s' & rws & t & Hrun & Hself & Htr & Hmiss & Hout)
              end.
              rewrite Hrun. cbn [self trace] in Hself, Htr.
              exists out, s', ((r, w) :: rws),
                (read_events (self s) fd m 1 r
                 ++ [ESleep 50]
                 ++ write_events (self s) fd m target v w ++ t).
              split; [reflexivity|]. split; [exact Hself|].
              split; [rewrite Htr; repeat rewrite <- app_assoc; reflexivity|].
              split.
              { constructor; [|exact Hmiss]. cbn [fst]. split.
                - rewrite Hval. reflexivity.
                - rewrite Hval. now apply bytes_eqb_neq. }
              assert (Hview : forall x,
                bus_view t = flat_map (retry_round fd m target) rws ++ x ->
                bus_view (read_events (self s) fd m 1 r ++ [ESleep 50]
                          ++ write_events (self s) fd m target v w ++ t) =
                flat_map (retry_round fd m target) ((r, w) :: rws) ++ x).
              { intros x Hx. rewrite !bus_view_app, bus_view_read_events,
                  bus_view_write_events, Hx.
                cbn [flat_map]. unfold retry_round at 2. cbn [fst snd].
                repeat rewrite <- app_assoc. reflexivity. }
              destruct out as [[]|e| |].
              ** destruct Hout as (Hlen & r' & Hhit & Hbus).
                 split; [cbn [length]; lia|]. exists r'. auto.
              ** destruct Hout as (Hlen & tail & Hab & Hbus).
                 split; [cbn [length]; lia|]. exists tail. auto.
              ** exact Hout.
              ** destruct Hout as (Hlen & Hbus).
                 split; [cbn [length]; lia|].
                 rewrite <- (app_nil_r (flat_map _ (_ :: _))).
                 apply Hview. now rewrite app_nil_r.
           ++ eexists (Raises (OSError e)), _, [], _.
              split; [reflexivity|]. cbn [self trace with_trace with_kstate].
              split; [reflexivity|].
              split; [repeat rewrite <- app_assoc; reflexivity|].
              split; [constructor|]. split; [cbn [length]; lia|].
              eexists. split.
              ** apply (abort_write_select fd m target r e). split.
                 --- rewrite Hval. reflexivity.
                 --- rewrite Hval. now apply bytes_eqb_neq.
              ** rewrite !bus_view_app, bus_view_read_events,
                   bus_view_select_refused. reflexivity.
      * eexists (Raises TypeError), _, [], _.
        split; [reflexivity|]. cbn [self trace].
        do 4 (split; [reflexivity || (cbn [length]; lia) || constructor|]).
        exists (bus_read fd m 1 r). split.
        -- apply abort_ord. rewrite Hval. discriminate.
        -- apply bus_view_read_events.
    + eexists (Raises (OSError e)), _, [], _.
      split; [reflexivity|]. cbn [self trace with_trace with_kstate].
      do 4 (split; [reflexivity || (cbn [length]; lia) || constructor|]).
      eexists. split.
      * apply abort_read_select.
      * apply bus_view_select_refused.
Qed.

Lemma while_fuel_mono (cond : M bool) (body : M unit) n :
  forall m s,
    (n <= m)%nat ->
    fst (while_ n cond body s) <> OutOfFuel ->
    while_ m cond body s = while_ n cond body s.
Proof.
  induction n as [|n IH]; intros m s Hle Hout.
  - now contradiction Hout.
  - destruct m as [|m]; [lia|].
    rewrite while_unfold in Hout. rewrite !while_unfold.
    destruct (cond s) as [[[]|e| |] s1]; try reflexivity.
    destruct (body s1) as [[[]|e| |] s2]; try reflexivity.
    apply IH; [lia | exact Hout].
Qed.

Lemma close_run s :
  close kernel s =
  match _device (self s) with
  | Some fd =>
      (Returns tt,
       {| self := set_device None (self s); sigalrm := sigalrm s;
          alarm := alarm s; kstate := sys_close kernel fd (kstate s);
          trace := trace s ++ [EClose fd] |})
  | None => (Returns tt, s)
  end.
Proof.
  unfold close. unfold_prims. step.
  destruct (_device (self s)); reflexivity.
Qed.

(** The handshake shared by [__enter__] and [__exit__]. *)
Lemma handshake_run fuel s fd a0 m target v :
  _device (self s) = Some fd ->
  exists out s' t,
    (write_bytes kernel a0 target v ;;
     while_ fuel (mux_disagrees kernel m target)
       (sleep 50 ;; write_bytes kernel m target v)) s = (out, s') /\
    self s' = self s /\
    trace s' = trace s ++ t /\
    handshake_view fd a0 m target fuel out (bus_view t).
Proof.
  intros Hdev. unfold bind at 1.
  rewrite (write_bytes_run _ fd) by exact Hdev.
  destruct (sys_ioctl kernel fd _I2C_DEVICE (Z.land a0 127) (kstate s))
    as [[[]|e] k1].
  - destruct (sys_write kernel fd target k1) as [w k2].
    match goal with
    | |- context [while_ fuel _ _ ?s1] =>
        destruct (poll_loop_run fuel s1 fd m target v Hdev)
          as (out & s' & rws & t & Hrun & Hself & Htr & Hmiss & Hout)
    end.
    rewrite Hrun. cbn [self trace] in Hself, Htr.
    exists out, s', (write_events (self s) fd a0 target v w ++ t).
    split; [reflexivity|]. split; [exact Hself|].
    split; [rewrite Htr, <- app_assoc; reflexivity|].
    rewrite bus_view_app, bus_view_write_events.
    destruct out as [[]|e| |]; cbn [handshake_view].
    + destruct Hout as (Hlen & r & Hhit & Hbus).
      exists w, rws, r. rewrite Hbus. auto.
    + destruct Hout as (Hlen & tail & Hab & Hbus).
      right. exists w, rws, tail. rewrite Hbus. auto.
    + exact Hout.
    + destruct Hout as (Hlen & Hbus).
      exists w, rws. rewrite Hbus. auto.
  - eexists (Raises (OSError e)), _, _.
    split; [reflexivity|]. cbn [self trace with_trace with_kstate].
    split; [reflexivity|]. split; [reflexivity|].
    left. exists e. split; [reflexivity|]. apply bus_view_select_refused.
Qed.

Lemma handshake_fuel_mono fuel fuel' s a0 m target v :
  (fuel <= fuel')%nat ->
  fst ((write_bytes kernel a0 target v ;;
        while_ fuel (mux_disagrees kernel m target)
          (sleep 50 ;; write_bytes kernel m target v)) s) <> OutOfFuel ->
  (write_bytes kernel a0 target v ;;
   while_ fuel' (mux_disagrees kernel m target)
     (sleep 50 ;; write_bytes kernel m target v)) s =
  (write_bytes kernel a0 target v ;;
   while_ fuel (mux_disagrees kernel m target)
     (sleep 50 ;; write_bytes kernel m target v)) s.
Proof.
  intros Hle. unfold bind.
  destruct (write_bytes kernel a0 target v s) as [[[]|e| |] s1];
    try reflexivity.
  intros Hout. now apply while_fuel_mono.
Qed.

Lemma Exists_bus_view (P : event -> Prop) t :
  (forall e, P e -> on_bus e = true) ->
  Exists P t <-> Exists P (bus_view t).
Proof.
  intros HP. unfold bus_view. rewrite !Exists_exists. split.
  - intros (e & Hin & He). exists e. split; [|exact He].
    apply filter_In. auto.
  - intros (e & Hin & He). exists e. split; [|exact He].
    now apply filter_In in Hin.
Qed.

Lemma hits_on_bus target e : hits target e -> on_bus e = true.
Proof. destruct e; cbn; intros H; try contradiction; reflexivity. Qed.

Lemma retry_rounds_miss fd m target rws :
  Forall (fun rw => poll_miss target (fst rw)) rws ->
  ~ Exists (hits target) (flat_map (retry_round fd m target) rws).
Proof.
  induction 1 as [|[r w] rws [_ Hne] _ IH]; cbn [flat_map].
  - intros H. inversion H.
  - rewrite Exists_app. intros [H|H]; [|exact (IH H)].
    unfold retry_round, bus_read, bus_write in H. cbn in H.
    repeat match goal with
           | H : Exists _ (_ :: _) |- _ => inversion H; clear H; subst
           | H : Exists _ [] |- _ => inversion H
           | H : hits _ _ |- _ => cbn in H; try contradiction
           end.
    all: try (now apply Hne).
Qed.

(** A handshake returns exactly when one of its reads yields the
    target. *)
Lemma handshake_returns_iff_hit fd a0 m target fuel out view :
  length target = 1%nat ->
  handshake_view fd a0 m target fuel out view ->
  (exists u, out = Returns u) <-> Exists (hits target) view.
Proof.
  intros Hlen Hview. split.
  - intros (u & ->). cbn [handshake_view] in Hview.
    destruct Hview as (w & rws & r & _ & _ & Hhit & ->).
    rewrite !Exists_app. right. right. unfold bus_read.
    apply Exists_cons_tl, Exists_cons_hd. exact Hhit.
  - intros Hex. destruct out as [u|e| |]; cbn [handshake_view] in Hview.
    + now exists u.
    + exfalso. destruct Hview as [(en & _ & ->)
                                 |(w & rws & tail & Hmiss & _ & Hab & ->)].
      * inversion Hex as [? ? H|? ? H]; subst; [exact H | inversion H].
      * rewrite !Exists_app in Hex. destruct Hex as [H|[H|H]].
        -- unfold bus_write in H.
           inversion H as [? ? H1|? ? H1]; subst; [exact H1|].
           inversion H1 as [? ? H2|? ? H2]; subst; [exact H2 | inversion H2].
        -- exact (retry_rounds_miss _ _ _ _ Hmiss H).
        -- destruct Hab as [en | r Hr | r en [_ Hne]]; unfold bus_read in H;
             cbn in H;
             repeat match goal with
                    | H : Exists _ (_ :: _) |- _ =>
                        inversion H; clear H; subst
                    | H : Exists _ [] |- _ => inversion H
                    | H : hits _ _ |- _ => cbn in H; try contradiction
                    end.
           all: try (now apply Hne).
           all: try (apply Hr; unfold poll_hit in *; congruence).
    + contradiction.
    + exfalso. destruct Hview as (w & rws & Hmiss & _ & ->).
      rewrite Exists_app in Hex. destruct Hex as [H|H].
      * unfold bus_write in H.
        inversion H as [? ? H1|? ? H1]; subst; [exact H1|].
        inversion H1 as [? ? H2|? ? H2]; subst; [exact H2 | inversion H2].
      * exact (retry_rounds_miss _ _ _ _ Hmiss H).
Qed.

(** ** The kernel's side of a call *)

Lemma bind_get_self {A} (f : SMBasic -> @M K A) s :
  bind get_self f s = f (self s) s.
Proof. reflexivity. Qed.

Lemma answers_app t1 t2 k k1 k2 :
  answers kernel t1 k k1 -> answers kernel t2 k1 k2 ->
  answers kernel (t1 ++ t2) k k2.
Proof.
  revert k. induction t1 as [|e t1 IH]; intros k H1 H2.
  - cbn [answers] in H1. subst k1. exact H2.
  - destruct e; cbn [app answers] in *;
      try (destruct H1 as [Hr H1]; split; [exact Hr|]); now apply IH.
Qed.

Lemma answers_select_events fd addr v r k1 k :
  sys_ioctl kernel fd _I2C_DEVICE (Z.land addr 0x7F) k = (r, k1) ->
  answers kernel (select_events fd addr v r) k k1.
Proof.
  intros Hsel. unfold select_events.
  destruct v; cbn [app answers]; rewrite Hsel; split; reflexivity.
Qed.

Lemma answers_read_events o fd addr number r k k1 k2 :
  sys_ioctl kernel fd _I2C_DEVICE (Z.land addr 0x7F) k = (Ok tt, k1) ->
  sys_read kernel fd number k1 = (r, k2) ->
  answers kernel (read_events o fd addr number r) k k2.
Proof.
  intros Hsel Hrd. unfold read_events.
  apply (answers_app _ _ k k1 k2); [now apply answers_select_events|].
  cbn [app answers]. rewrite Hrd. split; [reflexivity|]. cbn [snd].
  unfold read_report. destruct r; [destruct (verbose o)| |]; reflexivity.
Qed.

Lemma answers_write_events o fd addr buf v w k k1 k2 :
  sys_ioctl kernel fd _I2C_DEVICE (Z.land addr 0x7F) k = (Ok tt, k1) ->
  sys_write kernel fd buf k1 = (w, k2) ->
  answers kernel (write_events o fd addr buf v w) k k2.
Proof.
  intros Hsel Hwr. unfold write_events.
  apply (answers_app _ _ k k1 k2); [now apply answers_select_events|].
  destruct v; cbn [app answers]; rewrite Hwr; (split; [reflexivity|]);
    cbn [snd]; unfold write_report; destruct w; reflexivity.
Qed.

Lemma accounted_ret {A} (a : A) : accounted kernel (ret a).
Proof. intros s. exists []. now rewrite app_nil_r. Qed.

Lemma accounted_lift {A} (r : pyres A) : accounted kernel (lift r).
Proof. destruct r; intros s; exists []; now rewrite app_nil_r. Qed.

Lemma accounted_bind {A B} (m : @M K A) (f : A -> @M K B) :
  accounted kernel m -> (forall a, accounted kernel (f a)) ->
  accounted kernel (bind m f).
Proof.
  intros Hm Hf s. unfold bind. destruct (Hm s) as (t1 & Ht1 & Ha1).
  destruct (m s) as [[a|e| |] s1]; cbn [snd] in *;
    try (exists t1; now split).
  destruct (Hf a s1) as (t2 & Ht2 & Ha2).
  exists (t1 ++ t2). split.
  - now rewrite Ht2, Ht1, app_assoc.
  - now apply (answers_app _ _ _ (kstate s1)).
Qed.

Lemma accounted_while fuel (cond : @M K bool) (body : @M K unit) :
  accounted kernel cond -> accounted kernel body ->
  accounted kernel (while_ fuel cond body).
Proof.
  intros Hc Hb. induction fuel as [|fuel IH]; cbn [while_].
  - intros s. exists []. now rewrite app_nil_r.
  - apply accounted_bind; [exact Hc|]. intros [|].
    + apply accounted_bind; auto.
    + apply accounted_ret.
Qed.

Lemma accounted_sleep ms : accounted kernel (sleep ms).
Proof. intros s. exists [ESleep ms]. split; reflexivity. Qed.

Lemma accounted_read_bytes addr number :
  accounted kernel (read_bytes kernel addr number).
Proof.
  intros s. destruct (_device (self s)) as [fd|] eqn:Hdev.
  - rewrite (read_bytes_run s fd) by exact Hdev.
    destruct (sys_ioctl kernel fd _I2C_DEVICE (Z.land addr 127) (kstate s))
      as [[[]|e] k1] eqn:Hsel.
    + destruct (sys_read kernel fd number k1) as [r k2] eqn:Hrd.
      eexists. split; [reflexivity|]. cbn [snd kstate].
      now apply (answers_read_events _ _ _ _ _ _ k1).
    + eexists. split; [reflexivity|].
      cbn [snd kstate with_trace with_kstate].
      now apply answers_select_events.
  - rewrite (read_bytes_closed s) by exact Hdev.
    exists []. now rewrite app_nil_r.
Qed.

Lemma accounted_write_bytes addr buf v :
  accounted kernel (write_bytes kernel addr buf v).
Proof.
  intros s. destruct (_device (self s)) as [fd|] eqn:Hdev.
  - rewrite (write_bytes_run s fd) by exact Hdev.
    destruct (sys_ioctl kernel fd _I2C_DEVICE (Z.land addr 127) (kstate s))
      as [[[]|e] k1] eqn:Hsel.
    + destruct (sys_write kernel fd buf k1) as [w k2] eqn:Hwr.
      eexists. split; [reflexivity|]. cbn [snd kstate].
      now apply (answers_write_events _ _ _ _ _ _ _ k1).
    + eexists. split; [reflexivity|].
      cbn [snd kstate with_trace with_kstate].
      now apply answers_select_events.
  - rewrite (write_bytes_closed s) by exact Hdev.
    exists []. now rewrite app_nil_r.
Qed.


Lemma accounted_handshake fuel a0 m target v :
  accounted kernel
    (write_bytes kernel a0 target v ;;
     while_ fuel (mux_disagrees kernel m target)
       (sleep 50 ;; write_bytes kernel m target v)).
Proof.
  apply accounted_bind; [apply accounted_write_bytes|]. intros _.
  apply accounted_while.
  - unfold mux_disagrees.
    apply accounted_bind; [apply accounted_read_bytes|]. intros r.
    apply accounted_bind; [apply accounted_lift|]. intros x.
    apply accounted_bind; [apply accounted_lift|]. intros y.
    apply accounted_ret.
  - apply accounted_bind; [apply accounted_sleep|]. intros _.
    apply accounted_write_bytes.
Qed.

Lemma accounted_enter fuel : accounted kernel (__enter__ kernel fuel).
Proof.
  intros s. unfold __enter__. rewrite !bind_get_self.
  destruct (mux (self s)) as [m|]; [|apply accounted_ret].
  destruct (channel (self s)) as [c|]; [|apply accounted_ret].
  apply accounted_handshake.
Qed.


(** The trace a call adds is determined by the two states. *)
Lemma accounted_trace {A} (m : @M K A) s t :
  accounted kernel m ->
  trace (snd (m s)) = trace s ++ t ->
  answers kernel t (kstate s) (kstate (snd (m s))).
Proof.
  intros Hm Ht. destruct (Hm s) as (t' & Ht' & Ha).
  rewrite Ht in Ht'. apply app_inv_head in Ht'. now subst t'.
Qed.

(** C3.  A session with a mux and a channel [c], entering the scope:
    the mask [1 << c] is written to the mux address; the mux address is
    then polled with 1-byte reads; each read that differs from the mask
    is followed by 50 ms of sleep and the mask written again; entry
    returns at the first read that equals the mask and only then (with
    [fuel] polls and no hit it is still polling); more fuel does not
    change a run that ended.  The writes and reads are the kernel's:
    every system call in the trace is made on the kernel, in order,
    with the result the kernel gives, and the kernel ends in the state
    these calls leave; the object itself is not changed. *)
Theorem enter_locks_channel fuel s fd m c :
  _device (self s) = Some fd ->
  mux (self s) = Some m ->
  channel (self s) = Some [byte_of_Z (Z.shiftl 1 c)] ->
  exists out s' t,
    __enter__ kernel fuel s = (out, s') /\
    self s' = self s /\
    trace s' = trace s ++ t /\
    answers kernel t (kstate s) (kstate s') /\
    handshake_view fd m m [byte_of_Z (Z.shiftl 1 c)] fuel out (bus_view t) /\
    (out = Returns tt <-> Exists (hits [byte_of_Z (Z.shiftl 1 c)]) t) /\
    (forall fuel', (fuel <= fuel')%nat -> out <> OutOfFuel ->
                   __enter__ kernel fuel' s = (out, s')).
Proof.
  intros Hdev Hmux Hch.
  destruct (handshake_run fuel s fd m m [byte_of_Z (Z.shiftl 1 c)]
              (verbose (self s)) Hdev)
    as (out & s' & t & Hrun & Hself & Htr & Hview).
  assert (Henter : forall n,
    __enter__ kernel n s =
    (write_bytes kernel m [byte_of_Z (Z.shiftl 1 c)] (verbose (self s)) ;;
     while_ n (mux_disagrees kernel m [byte_of_Z (Z.shiftl 1 c)])
       (sleep 50 ;;
        write_bytes kernel m [byte_of_Z (Z.shiftl 1 c)] (verbose (self s))))
      s).
  { intros n. unfold __enter__. unfold bind at 1. unfold get_self.
    rewrite Hmux, Hch. reflexivity. }
  exists out, s', t. rewrite Henter.
  split; [exact Hrun|]. split; [exact Hself|]. split; [exact Htr|].
  split.
  { pose proof (accounted_trace _ s t (accounted_enter fuel)) as Hacc.
    rewrite Henter, Hrun in Hacc. exact (Hacc Htr). }
  split; [exact Hview|]. split.
  - rewrite (Exists_bus_view _ t (hits_on_bus _)).
    rewrite <- (handshake_returns_iff_hit fd m m
                  [byte_of_Z (Z.shiftl 1 c)] fuel out _ eq_refl Hview).
    split; [intros ->; now exists tt | intros ([] & ->); reflexivity].
  - intros fuel' Hle Hout. rewrite Henter, <- Hrun.
    apply handshake_fuel_mono; [exact Hle|]. now rewrite Hrun.
Qed.

(** ** Leaving the scope *)

Lemma exit_run_plain fuel exc s :
  mux (self s) = None \/ channel (self s) = None ->
  __exit__ kernel fuel exc s =
  match _device (self s) with
  | Some fd =>
      (Returns false,
       {| self := set_device None (self s); sigalrm := sigalrm s;
          alarm := alarm s; kstate := sys_close kernel fd (kstate s);
          trace := trace s ++ [EClose fd] |})
  | None => (Returns false, s)
  end.
Proof.
  intros Hplain. unfold __exit__. unfold bind at 1. unfold get_self.
  assert (Hskip :
    match mux (self s), channel (self s) with
    | Some m, Some _ =>
        write_bytes kernel 0x70 _MUX_UNLOCK_REGISTER (verbose (self s)) ;;
        while_ fuel (mux_disagrees kernel m [x00])
          (sleep 50 ;; write_bytes kernel m [x00] (verbose (self s)))
    | _, _ => ret tt
    end = ret tt).
  { destruct Hplain as [-> | ->]; [reflexivity|].
    destruct (mux (self s)); reflexivity. }
  rewrite Hskip. unfold bind, ret. rewrite close_run.
  destruct (_device (self s)); reflexivity.
Qed.

Lemma exit_run_mux_closed fuel exc s m c :
  _device (self s) = None ->
  mux (self s) = Some m ->
  channel (self s) = Some c ->
  __exit__ kernel fuel exc s = (Raises (AssertionError not_open_msg), s).
Proof.
  intros Hdev Hmux Hch. unfold __exit__. unfold bind at 1. unfold get_self.
  rewrite Hmux, Hch. unfold bind.
  rewrite write_bytes_closed by exact Hdev. reflexivity.
Qed.

Lemma exit_run_mux fuel exc s fd m c :
  _device (self s) = Some fd ->
  mux (self s) = Some m ->
  channel (self s) = Some c ->
  exists out s' th,
    handshake_view fd 0x70 m [x00] fuel (void out) (bus_view th) /\
    __exit__ kernel fuel exc s = (out, s') /\
    match out with
    | Returns b =>
        b = false /\
        self s' = set_device None (self s) /\
        trace s' = trace s ++ th ++ [EClose fd]
    | _ => self s' = self s /\ trace s' = trace s ++ th
    end.
Proof.
  intros Hdev Hmux Hch.
  destruct (handshake_run fuel s fd 0x70 m [x00] (verbose (self s)) Hdev)
    as (h & s1 & th & Hrun & Hself & Htr & Hview).
  unfold __exit__. unfold bind at 1. unfold get_self.
  rewrite Hmux, Hch. change _MUX_UNLOCK_REGISTER with [x00].
  unfold bind at 1. rewrite Hrun.
  destruct h as [[]|e| |].
  - unfold bind, ret. rewrite close_run, Hself, Hdev.
    eexists (Returns false), _, th.
    split; [exact Hview|]. split; [reflexivity|]. cbn [self trace].
    rewrite Htr, <- app_assoc. auto.
  - exists (Raises e), s1, th. auto.
  - exists NoReturn, s1, th. auto.
  - exists OutOfFuel, s1, th. auto.
Qed.

(** What [__exit__] does, whatever the body did. *)
Lemma exit_run fuel exc s :
  exists out s' t,
    __exit__ kernel fuel exc s = (out, s') /\
    trace s' = trace s ++ t /\
    (forall b, out = Returns b ->
       b = false /\
       _device (self s') = None /\
       forall fd, _device (self s) = Some fd ->
         exists th,
           t = th ++ [EClose fd] /\
           match mux (self s), channel (self s) with
           | Some m, Some _ =>
               handshake_view fd 0x70 m [x00] fuel (Returns tt) (bus_view th)
           | _, _ => th = []
           end) /\
    ((exists b, out = Returns b) <->
     mux (self s) = None \/ channel (self s) = None \/
     Exists (hits [x00]) t) /\
    ((forall b, out <> Returns b) ->
     _device (self s') = _device (self s) /\
     out <> NoReturn /\
     forall fd m, _device (self s) = Some fd -> mux (self s) = Some m ->
       handshake_view fd 0x70 m [x00] fuel (void out) (bus_view t)).
Proof.
  destruct (mux (self s)) as [m|] eqn:Hmux;
    [destruct (channel (self s)) as [c|] eqn:Hch|].
  - destruct (_device (self s)) as [fd|] eqn:Hdev.
    + destruct (exit_run_mux fuel exc s fd m c Hdev Hmux Hch)
        as (out & s' & th & Hview & Hrun & Hout).
      assert (Hiff := handshake_returns_iff_hit fd 0x70 m [x00] fuel
                        (void out) (bus_view th) eq_refl Hview).
      rewrite <- (Exists_bus_view _ th (hits_on_bus _)) in Hiff.
      destruct out as [b|e| |]; cbn [void] in *.
      * destruct Hout as (-> & Hself & Htr).
        exists (Returns false), s', (th ++ [EClose fd]).
        split; [exact Hrun|]. split; [exact Htr|]. split; [|split].
        -- intros b [= <-]. split; [reflexivity|]. rewrite Hself.
           split; [reflexivity|].
           intros fd' [= <-]. exists th. auto.
        -- split; [intros _|intros _; now exists false].
           right. right. rewrite Exists_app. left. apply Hiff. now exists tt.
        -- intros Hno. now contradiction (Hno false).
      * destruct Hout as (Hself & Htr).
        exists (Raises e), s', th.
        split; [exact Hrun|]. split; [exact Htr|]. split; [|split].
        -- discriminate.
        -- split; [intros (b & [=])|].
           intros [[=]|[[=]|Hex]]. apply Hiff in Hex.
           destruct Hex as (u & [=]).
        -- intros _. rewrite Hself. split; [exact Hdev|].
           split; [discriminate|]. intros fd' m' [= <-] [= <-]. exact Hview.
      * contradiction.
      * destruct Hout as (Hself & Htr).
        exists OutOfFuel, s', th.
        split; [exact Hrun|]. split; [exact Htr|]. split; [|split].
        -- discriminate.
        -- split; [intros (b & [=])|].
           intros [[=]|[[=]|Hex]]. apply Hiff in Hex.
           destruct Hex as (u & [=]).
        -- intros _. rewrite Hself. split; [exact Hdev|].
           split; [discriminate|]. intros fd' m' [= <-] [= <-]. exact Hview.
    + exists (Raises (AssertionError not_open_msg)), s, [].
      split; [now apply (exit_run_mux_closed fuel exc s m c)|].
      split; [now rewrite app_nil_r|]. split; [|split].
      * discriminate.
      * split; [intros (b & [=])|].
        intros [[=]|[[=]|Hex]]. inversion Hex.
      * intros _. split; [exact Hdev|]. split; [discriminate|].
        intros fd' m' [=].
  - rewrite (exit_run_plain fuel exc s) by (right; exact Hch).
    destruct (_device (self s)) as [fd|] eqn:Hdev.
    + eexists (Returns false), _, [EClose fd].
      split; [reflexivity|]. cbn [self trace _device set_device].
      split; [reflexivity|]. split; [|split].
      * intros b [= <-]. split; [reflexivity|]. split; [reflexivity|].
        intros fd' [= <-]. exists []. auto.
      * split; [auto | intros _; now exists false].
      * intros Hno. now contradiction (Hno false).
    + exists (Returns false), s, [].
      split; [reflexivity|]. split; [now rewrite app_nil_r|]. split; [|split].
      * intros b [= <-]. split; [reflexivity|]. split; [exact Hdev|].
        intros fd' [=].
      * split; [auto | intros _; now exists false].
      * intros Hno. now contradiction (Hno false).
  - rewrite (exit_run_plain fuel exc s) by (left; exact Hmux).
    destruct (_device (self s)) as [fd|] eqn:Hdev.
    + eexists (Returns false), _, [EClose fd].
      split; [reflexivity|]. cbn [self trace _device set_device].
      split; [reflexivity|]. split; [|split].
      * intros b [= <-]. split; [reflexivity|]. split; [reflexivity|].
        intros fd' [= <-]. exists []. auto.
      * split; [auto | intros _; now exists false].
      * intros Hno. now contradiction (Hno false).
    + exists (Returns false), s, [].
      split; [reflexivity|]. split; [now rewrite app_nil_r|]. split; [|split].
      * intros b [= <-]. split; [reflexivity|]. split; [exact Hdev|].
        intros fd' [=].
      * split; [auto | intros _; now exists false].
      * intros Hno. now contradiction (Hno false).
Qed.



(** C1.  On an open session whose address selection went through, a
    transfer that times out or fails with an errno does not reach the
    caller: a failed read makes [read_bytes] return [number] zero
    bytes, and a failed write makes [write_bytes] return, each after
    printing one diagnostic line and cancelling the alarm, and each
    whatever the other kind of transfer would do on that bus. *)
Theorem transfer_failures_are_masked s fd addr number buf v k1 :
  _device (self s) = Some fd ->
  sys_ioctl kernel fd _I2C_DEVICE (Z.land addr 0x7F) (kstate s)
    = (Ok tt, k1) ->
  (forall r kr,
     sys_read kernel fd number k1 = (r, kr) ->
     transfer_failed r = true ->
     exists l,
       read_report (self s) addr r = [EPrint l] /\
       read_bytes kernel addr number s =
         (Returns (repeat x00 number),
          {| self := self s; sigalrm := HandleTimeout; alarm := None;
             kstate := kr;
             trace := trace s
                      ++ select_events fd addr (verbose (self s)) (Ok tt)
                      ++ [ESignal; EAlarm _I2C_TIMEOUT; ERead fd number r;
                          EPrint l; EAlarm 0] |})) /\
  (forall w kw,
     sys_write kernel fd buf k1 = (w, kw) ->
     transfer_failed w = true ->
     exists l,
       write_report (self s) addr w = [EPrint l] /\
       write_bytes kernel addr buf v s =
         (Returns tt,
          {| self := self s; sigalrm := HandleTimeout; alarm := None;
             kstate := kw;
             trace := trace s
                      ++ select_events fd addr v (Ok tt)
                      ++ (if v then [EPrint (WritingBytesLine buf)] else [])
                      ++ [ESignal; EAlarm _I2C_TIMEOUT; EWrite fd buf w;
                          EPrint l; EAlarm 0] |})).
Proof.
  intros Hdev Hsel. split.
  - intros r kr Hrd Hr.
    rewrite (read_bytes_run _ fd) by exact Hdev. rewrite Hsel, Hrd.
    destruct r as [b|en|]; [discriminate| |];
      eexists; (split; [reflexivity|]); reflexivity.
  - intros w kw Hwr Hw.
    rewrite (write_bytes_run _ fd) by exact Hdev. rewrite Hsel, Hwr.
    destruct w as [n|en|]; [discriminate| |];
      eexists; (split; [reflexivity|]); reflexivity.
Qed.

Lemma quiet_select_events fd addr v r :
  forallb quiet (select_events fd addr v r) = true.
Proof. destruct v; reflexivity. Qed.

(** C8.  A call to [read_bytes] or [write_bytes] on an open handle
    arms the alarm immediately before the blocking transfer and cancels
    it as its last action, whether the transfer completed, stalled
    until the alarm went off, or failed; nothing but the transfer and
    what the call prints happens in between.  A call whose address
    selection is refused ends before the alarm is touched.  So a call
    that starts with no alarm pending never ends with one pending. *)
Theorem alarm_brackets_transfer s fd addr number buf v :
  _device (self s) = Some fd ->
  match sys_ioctl kernel fd _I2C_DEVICE (Z.land addr 0x7F) (kstate s) with
  | (Errno en, _) =>
      (exists s' t,
         read_bytes kernel addr number s = (Raises (OSError en), s') /\
         trace s' = trace s ++ t /\ forallb quiet t = true /\
         alarm s' = alarm s) /\
      (exists s' t,
         write_bytes kernel addr buf v s = (Raises (OSError en), s') /\
         trace s' = trace s ++ t /\ forallb quiet t = true /\
         alarm s' = alarm s)
  | (Ok _, k1) =>
      (exists s' pre post,
         let r := fst (sys_read kernel fd number k1) in
         read_bytes kernel addr number s
           = (Returns (read_value number r), s') /\
         trace s' = trace s ++ pre
                    ++ [EAlarm _I2C_TIMEOUT; ERead fd number r]
                    ++ post ++ [EAlarm 0] /\
         forallb quiet pre = true /\ forallb quiet post = true /\
         alarm s' = None) /\
      (exists s' pre post,
         let w := fst (sys_write kernel fd buf k1) in
         write_bytes kernel addr buf v s = (Returns tt, s') /\
         trace s' = trace s ++ pre
                    ++ [EAlarm _I2C_TIMEOUT; EWrite fd buf w]
                    ++ post ++ [EAlarm 0] /\
         forallb quiet pre = true /\ forallb quiet post = true /\
         alarm s' = None)
  end /\
  (alarm s = None ->
   alarm (snd (read_bytes kernel addr number s)) = None /\
   alarm (snd (write_bytes kernel addr buf v s)) = None).
Proof.
  intros Hdev.
  rewrite (read_bytes_run _ fd), (write_bytes_run _ fd) by exact Hdev.
  destruct (sys_ioctl kernel fd _I2C_DEVICE (Z.land addr 127) (kstate s))
    as [[[]|en] k1].
  - destruct (sys_read kernel fd number k1) as [r kr].
    destruct (sys_write kernel fd buf k1) as [w kw].
    cbn [fst snd alarm]. split; [split|auto].
    + eexists _, (select_events fd addr (verbose (self s)) (Ok tt)
                  ++ [ESignal]),
        (read_report (self s) addr r).
      cbv zeta. split; [reflexivity|]. cbn [trace alarm].
      split; [unfold read_events; repeat rewrite <- app_assoc; reflexivity|].
      split; [unfold select_events; destruct (verbose (self s)); reflexivity|].
      split; [unfold read_report; destruct r, (verbose (self s)); reflexivity
             | reflexivity].
    + eexists _, (select_events fd addr v (Ok tt)
                  ++ (if v then [EPrint (WritingBytesLine buf)] else [])
                  ++ [ESignal]),
        (write_report (self s) addr w).
      cbv zeta. split; [reflexivity|]. cbn [trace alarm].
      split; [unfold write_events; repeat rewrite <- app_assoc; reflexivity|].
      split; [destruct v; reflexivity|].
      split; [destruct w; reflexivity | reflexivity].
  - cbn [snd alarm with_trace with_kstate]. split; [split|auto].
    + eexists _, _. split; [reflexivity|]. cbn [trace alarm with_trace
        with_kstate].
      split; [reflexivity|]. split; [apply quiet_select_events|reflexivity].
    + eexists _, _. split; [reflexivity|]. cbn [trace alarm with_trace
        with_kstate].
      split; [reflexivity|]. split; [apply quiet_select_events|reflexivity].
Qed.

(** ** Construction *)

Lemma open_run_fresh bus s :
  _device (self s) = None ->
  open kernel bus s =
  match sys_open kernel bus (kstate s) with
  | (Ok fd, k1) =>
      (Returns tt,
       {| self := set_device (Some fd) (self s); sigalrm := sigalrm s;
          alarm := alarm s; kstate := k1;
          trace := trace s ++ [EOpen bus (Ok fd)] |})
  | (Errno en, k1) =>
      (Raises (OSError en),
       {| self := self s; sigalrm := sigalrm s; alarm := alarm s;
          kstate := k1; trace := trace s ++ [EOpen bus (Errno en)] |})
  end.
Proof.
  intros Hdev. unfold open. unfold_prims. step. rewrite Hdev. step.
  destruct (sys_open kernel bus (kstate s)) as [[fd|en] k1]; reflexivity.
Qed.

Lemma shiftl_1_fits c :
  0 <= c ->
  (0 <=? Z.shiftl 1 c) && (Z.shiftl 1 c <? 256) = (c <=? 7).
Proof.
  intros Hc. rewrite Z.shiftl_1_l.
  assert (0 < 2 ^ c) by (apply Z.pow_pos_nonneg; lia).
  destruct (Z.leb_spec c 7) as [Hle|Hgt].
  - assert (2 ^ c <= 2 ^ 7) by (apply Z.pow_le_mono_r; lia).
    change (2 ^ 7) with 128 in *.
    apply andb_true_iff. split; [apply Z.leb_le | apply Z.ltb_lt]; lia.
  - assert (2 ^ 8 <= 2 ^ c) by (apply Z.pow_le_mono_r; lia).
    change (2 ^ 8) with 256 in *.
    apply andb_false_iff. right. apply Z.ltb_ge. lia.
Qed.

(** The object [__init__] builds before it opens the bus. *)
Lemma init_run bus mx ch v s :
  __init__ kernel bus mx ch v s =
  match mx, ch with
  | Some m, Some c =>
      if (0 <=? c) && (c <=? 7) then
        open kernel bus
          (with_self
             {| mux := Some m;
                channel := Some [byte_of_Z (Z.shiftl 1 c)];
                verbose := v; _device := None;
                _locked := _locked (self s) |} s)
      else (Raises ValueError, with_self (set_mux (Some m) (self s)) s)
  | None, None =>
      open kernel bus
        (with_self
           {| mux := None; channel := None; verbose := v;
              _device := None; _locked := _locked (self s) |} s)
  | _, _ => (Raises (AssertionError EmptyString), s)
  end.
Proof.
  unfold __init__. destruct mx as [m|], ch as [c|]; cbn [is_not_None xorb negb].
  - unfold lshift. destruct (Z.ltb_spec c 0) as [Hneg|Hpos].
    + replace (0 <=? c) with false by (symmetry; apply Z.leb_gt; lia).
      reflexivity.
    + replace (0 <=? c) with true by (symmetry; apply Z.leb_le; lia).
      cbn [andb]. rewrite <- (shiftl_1_fits c Hpos).
      unfold_prims. step. cbn [bytearray_of_ints].
      destruct ((0 <=? Z.shiftl 1 c) && (Z.shiftl 1 c <? 256)); reflexivity.
  - reflexivity.
  - reflexivity.
  - reflexivity.
Qed.

(** C5.  Once a session has been opened and then closed, [read_bytes]
    and [write_bytes] raise the assertion error of the open-handle
    precondition and do nothing else: the state, and with it the
    trace, is untouched. *)
Theorem closed_session_refuses_transfers bus mx ch v s0 s1 :
  __init__ kernel bus mx ch v s0 = (Returns tt, s1) ->
  exists fd s2,
    _device (self s1) = Some fd /\
    close kernel s1 = (Returns tt, s2) /\
    trace s2 = trace s1 ++ [EClose fd] /\
    _device (self s2) = None /\
    forall addr number buf vb,
      read_bytes kernel addr number s2
        = (Raises (AssertionError not_open_msg), s2) /\
      write_bytes kernel addr buf vb s2
        = (Raises (AssertionError not_open_msg), s2).
Proof.
  intros Hinit.
  assert (Hopen : exists fd, _device (self s1) = Some fd).
  { rewrite init_run in Hinit.
    destruct mx as [m|], ch as [c|]; try discriminate.
    - destruct ((0 <=? c) && (c <=? 7)); [|discriminate].
      rewrite open_run_fresh in Hinit by reflexivity.
      cbn [kstate with_self] in Hinit.
      destruct (sys_open kernel bus (kstate s0)) as [[fd|en] k1];
        [|discriminate].
      injection Hinit as <-. now exists fd.
    - rewrite open_run_fresh in Hinit by reflexivity.
      cbn [kstate with_self] in Hinit.
      destruct (sys_open kernel bus (kstate s0)) as [[fd|en] k1];
        [|discriminate].
      injection Hinit as <-. now exists fd. }
  destruct Hopen as (fd & Hdev).
  exists fd. eexists. split; [exact Hdev|].
  rewrite close_run, Hdev. split; [reflexivity|]. cbn [trace self].
  split; [reflexivity|]. split; [reflexivity|].
  intros addr number buf vb. split.
  - now apply read_bytes_closed.
  - now apply write_bytes_closed.
Qed.

(** C6.  [__init__] raises its pairing assertion, before doing
    anything, exactly when one of [mux] and [channel] is given without
    the other; with both or neither it never raises an assertion
    error. *)
Theorem init_requires_mux_and_channel_together bus mx ch v s :
  (is_not_None mx <> is_not_None ch ->
   __init__ kernel bus mx ch v s = (Raises (AssertionError EmptyString), s))
  /\
  (is_not_None mx = is_not_None ch ->
   forall msg,
     fst (__init__ kernel bus mx ch v s) <> Raises (AssertionError msg)).
Proof.
  rewrite init_run. split.
  - destruct mx, ch; cbn [is_not_None]; intros H; try reflexivity;
      now contradiction H.
  - destruct mx as [m|], ch as [c|]; cbn [is_not_None]; intros H msg;
      try discriminate.
    + destruct ((0 <=? c) && (c <=? 7)); [|discriminate].
      rewrite open_run_fresh by reflexivity.
      destruct (sys_open kernel bus _) as [[fd|en] k1]; discriminate.
    + rewrite open_run_fresh by reflexivity.
      destruct (sys_open kernel bus _) as [[fd|en] k1]; discriminate.
Qed.

(** ** The advisory lock *)

Lemma try_lock_run s :
  try_lock s =
  if _locked (self s) then (Returns false, s)
  else (Returns true, with_self (set_locked true (self s)) s).
Proof.
  unfold try_lock. unfold_prims. step.
  destruct (_locked (self s)); reflexivity.
Qed.

Lemma unlock_run s :
  unlock s =
  if _locked (self s)
  then (Returns tt, with_self (set_locked false (self s)) s)
  else (Returns tt, s).
Proof.
  unfold unlock. unfold_prims. step.
  destruct (_locked (self s)); reflexivity.
Qed.

(** No method other than [try_lock] and [unlock] writes the flag. *)

Create HintDb frame.

Lemma keeps_lock_ret {A} (a : A) : keeps_lock (K := K) (ret a).
Proof. intros s. reflexivity. Qed.

Lemma keeps_lock_raise {A} e : keeps_lock (K := K) (raise (A := A) e).
Proof. intros s. reflexivity. Qed.

Lemma keeps_lock_out_of_fuel {A} : keeps_lock (K := K) (out_of_fuel (A := A)).
Proof. intros s. reflexivity. Qed.

Lemma keeps_lock_bind {A B} (m : @M K A) (f : A -> @M K B) :
  keeps_lock m -> (forall a, keeps_lock (f a)) -> keeps_lock (bind m f).
Proof.
  intros Hm Hf s. unfold bind. specialize (Hm s).
  destruct (m s) as [[a|e| |] s1]; cbn [snd] in *; try exact Hm.
  now rewrite Hf.
Qed.

Lemma keeps_lock_when b (m : @M K unit) : keeps_lock m -> keeps_lock (when b m).
Proof. destruct b; [auto | intros _ s; reflexivity]. Qed.

Lemma keeps_lock_lift {A} (r : pyres A) : keeps_lock (K := K) (lift r).
Proof. destruct r; intros s; reflexivity. Qed.

Lemma keeps_lock_assert c msg : keeps_lock (K := K) (assert_ c msg).
Proof. destruct c; intros s; reflexivity. Qed.

Lemma keeps_lock_get_self : keeps_lock (K := K) get_self.
Proof. intros s. reflexivity. Qed.

Lemma keeps_lock_modify_self f :
  (forall o, _locked (f o) = _locked o) ->
  keeps_lock (K := K) (modify_self f).
Proof. intros Hf s. apply Hf. Qed.

Lemma keeps_lock_emit e : keeps_lock (K := K) (emit e).
Proof. intros s. reflexivity. Qed.

Lemma keeps_lock_signal_signal h : keeps_lock (K := K) (signal_signal h).
Proof. intros s. reflexivity. Qed.

Lemma keeps_lock_signal_alarm t : keeps_lock (K := K) (signal_alarm t).
Proof. intros s. reflexivity. Qed.

Lemma keeps_lock_builtin_open bus : keeps_lock (builtin_open kernel bus).
Proof.
  intros s. unfold builtin_open.
  destruct (sys_open kernel bus (kstate s)) as [[fd|en] k]; reflexivity.
Qed.

Lemma keeps_lock_file_close fd : keeps_lock (file_close kernel fd).
Proof. intros s. reflexivity. Qed.

Lemma keeps_lock_fileno : keeps_lock (K := K) fileno.
Proof. intros s. unfold fileno. destruct (_device (self s)); reflexivity. Qed.

Lemma keeps_lock_ioctl fd request arg :
  keeps_lock (ioctl kernel fd request arg).
Proof.
  intros s. unfold ioctl.
  destruct (sys_ioctl kernel fd request arg (kstate s)) as [[u|en] k];
    reflexivity.
Qed.

Lemma keeps_lock_deliver_sigalrm {A} :
  keeps_lock (K := K) (deliver_sigalrm (A := A)).
Proof.
  intros s. unfold deliver_sigalrm.
  destruct (alarm s), (sigalrm s); reflexivity.
Qed.

Lemma keeps_lock_device_read number : keeps_lock (device_read kernel number).
Proof.
  apply keeps_lock_bind; [apply keeps_lock_fileno|].
  intros fd s. cbv beta.
  destruct (sys_read kernel fd number (kstate s)) as [r k].
  destruct r; try reflexivity.
  cbv zeta. now rewrite (keeps_lock_deliver_sigalrm (A := bytes)).
Qed.

Lemma keeps_lock_device_write buf : keeps_lock (device_write kernel buf).
Proof.
  apply keeps_lock_bind; [apply keeps_lock_fileno|].
  intros fd s. cbv beta.
  destruct (sys_write kernel fd buf (kstate s)) as [r k].
  destruct r; try reflexivity.
  cbv zeta. now rewrite (keeps_lock_deliver_sigalrm (A := nat)).
Qed.

Lemma keeps_lock_try_except {A} (body : @M K A) handlers :
  keeps_lock body ->
  (forall e h, handlers e = Some h -> keeps_lock h) ->
  keeps_lock (try_except body handlers).
Proof.
  intros Hb Hh s. unfold try_except. specialize (Hb s).
  destruct (body s) as [[a|e| |] s1]; cbn [snd] in *; try exact Hb.
  destruct (handlers e) as [h|] eqn:He; [|exact Hb].
  now rewrite (Hh e h He).
Qed.

Lemma keeps_lock_try_finally {A} (body : @M K A) fin :
  keeps_lock body -> keeps_lock fin -> keeps_lock (try_finally body fin).
Proof.
  intros Hb Hf s. unfold try_finally. specialize (Hb s).
  destruct (body s) as [[a|e| |] s1]; cbn [snd] in *; try exact Hb;
    specialize (Hf s1);
    destruct (fin s1) as [[u|e'| |] s2]; cbn [snd] in *; congruence.
Qed.

Lemma keeps_lock_while fuel (cond : @M K bool) (body : @M K unit) :
  keeps_lock cond -> keeps_lock body -> keeps_lock (while_ fuel cond body).
Proof.
  intros Hc Hb. induction fuel as [|fuel IH]; cbn [while_].
  - apply keeps_lock_out_of_fuel.
  - apply keeps_lock_bind; [exact Hc|]. intros [|].
    + apply keeps_lock_bind; auto.
    + apply keeps_lock_ret.
Qed.

#[local] Hint Resolve keeps_lock_ret keeps_lock_raise keeps_lock_out_of_fuel
  keeps_lock_when keeps_lock_lift keeps_lock_assert keeps_lock_get_self
  keeps_lock_emit keeps_lock_signal_signal keeps_lock_signal_alarm
  keeps_lock_builtin_open keeps_lock_file_close keeps_lock_fileno
  keeps_lock_ioctl keeps_lock_device_read keeps_lock_device_write
  keeps_lock_try_finally keeps_lock_while : frame.

Ltac frame :=
  repeat first
    [ solve [auto with frame]
    | apply keeps_lock_bind; [|intros ?]
    | apply keeps_lock_modify_self; intros ?; reflexivity
    | apply keeps_lock_try_finally
    | apply keeps_lock_while
    | apply keeps_lock_when
    | apply keeps_lock_try_except;
        [|intros [] ? [=]; subst]
    | progress unfold print, sleep
    | match goal with
      | |- keeps_lock (match ?x with _ => _ end) => destruct x
      | |- keeps_lock (if ?x then _ else _) => destruct x
      end ].

Lemma keeps_lock_close : keeps_lock (close kernel).
Proof. unfold close. frame. Qed.

Lemma keeps_lock_open bus : keeps_lock (open kernel bus).
Proof. unfold open. frame. Qed.

Lemma keeps_lock_select_device addr v :
  keeps_lock (_select_device kernel addr v).
Proof. unfold _select_device. frame. Qed.

Lemma keeps_lock_read_bytes addr number :
  keeps_lock (read_bytes kernel addr number).
Proof.
  unfold read_bytes. pose proof keeps_lock_select_device. frame.
Qed.

Lemma keeps_lock_write_bytes addr buf v :
  keeps_lock (write_bytes kernel addr buf v).
Proof.
  unfold write_bytes. pose proof keeps_lock_select_device. frame.
Qed.

Lemma keeps_lock_mux_disagrees m target :
  keeps_lock (mux_disagrees kernel m target).
Proof.
  unfold mux_disagrees. pose proof keeps_lock_read_bytes. frame.
Qed.

Lemma keeps_lock_enter fuel : keeps_lock (__enter__ kernel fuel).
Proof.
  unfold __enter__.
  pose proof keeps_lock_write_bytes. pose proof keeps_lock_mux_disagrees.
  frame.
Qed.

Lemma keeps_lock_exit fuel exc : keeps_lock (__exit__ kernel fuel exc).
Proof.
  unfold __exit__.
  pose proof keeps_lock_write_bytes. pose proof keeps_lock_mux_disagrees.
  pose proof keeps_lock_close.
  frame.
Qed.

Lemma after_call_keeps_held c s :
  _locked (self s) = true -> _locked (self (after_call kernel c s)) = true.
Proof.
  intros Hheld. destruct c; cbn [after_call].
  - rewrite try_lock_run, Hheld. exact Hheld.
  - now rewrite keeps_lock_open.
  - now rewrite keeps_lock_close.
  - now rewrite keeps_lock_read_bytes.
  - now rewrite keeps_lock_write_bytes.
  - now rewrite keeps_lock_enter.
  - now rewrite keeps_lock_exit.
Qed.

Lemma after_calls_keeps_held cs : forall s,
  _locked (self s) = true -> _locked (self (after_calls kernel cs s)) = true.
Proof.
  unfold after_calls.
  induction cs as [|c cs IH]; intros s Hheld; cbn [fold_left].
  - exact Hheld.
  - apply IH. now apply after_call_keeps_held.
Qed.

(** C7.  On a session whose lock is free, [try_lock] returns [True]
    and takes the lock; until [unlock] is called, whatever other
    methods are called in between (further [try_lock] calls among
    them), every [try_lock] returns [False] and leaves the lock taken;
    [unlock] releases it, giving back the state before the first
    [try_lock], where [try_lock] returns [True] again; [unlock] on a
    free lock changes nothing. *)
Theorem try_lock_once_until_unlock s :
  _locked (self s) = false ->
  exists s1,
    try_lock s = (Returns true, s1) /\
    _locked (self s1) = true /\
    (forall cs,
       let s' := after_calls kernel cs s1 in
       _locked (self s') = true /\ try_lock s' = (Returns false, s')) /\
    unlock s1 = (Returns tt, s) /\
    unlock s = (Returns tt, s) /\
    try_lock (snd (unlock s1)) = (Returns true, s1).
Proof.
  intros Hfree.
  exists (with_self (set_locked true (self s)) s).
  assert (Hunlock :
    unlock (with_self (set_locked true (self s)) s) = (Returns tt, s)).
  { rewrite unlock_run. cbn [self with_self _locked set_locked].
    destruct s as [[mx ch vb dev lk] h a k t]. cbn in Hfree. subst lk.
    reflexivity. }
  split; [now rewrite try_lock_run, Hfree|].
  split; [reflexivity|]. split; [|split; [|split]].
  - intros cs. cbv zeta.
    assert (Hheld := after_calls_keeps_held cs
                       (with_self (set_locked true (self s)) s) eq_refl).
    split; [exact Hheld|]. now rewrite try_lock_run, Hheld.
  - exact Hunlock.
  - now rewrite unlock_run, Hfree.
  - rewrite Hunlock. cbn [snd]. now rewrite try_lock_run, Hfree.
Qed.

Lemma byte_of_pow2 c :
  0 <= c <= 7 -> Z_of_byte (byte_of_Z (2 ^ c)) = 2 ^ c.
Proof.
  intros Hc.
  assert (Hcases : c = 0 \/ c = 1 \/ c = 2 \/ c = 3 \/
                   c = 4 \/ c = 5 \/ c = 6 \/ c = 7) by lia.
  repeat destruct Hcases as [->|Hcases]; try subst c; reflexivity.
Qed.

(** C10.  With a mux address, a channel index below 0 or above 7 makes
    [__init__] raise [ValueError] before the bus is opened; a session
    that [__init__] built with a mux holds as channel mask the single
    byte [1 << channel] for a channel index from 0 to 7, a byte with
    exactly the bit [channel] set. *)
Theorem init_checks_channel_range bus v s :
  (forall m c,
     c < 0 \/ 7 < c ->
     exists s',
       __init__ kernel bus (Some m) (Some c) v s = (Raises ValueError, s') /\
       trace s' = trace s /\ kstate s' = kstate s) /\
  (forall mx ch s' m,
     __init__ kernel bus mx ch v s = (Returns tt, s') ->
     mux (self s') = Some m ->
     exists c b,
       mx = Some m /\ ch = Some c /\ 0 <= c <= 7 /\
       channel (self s') = Some [b] /\
       b = byte_of_Z (Z.shiftl 1 c) /\
       Z_of_byte b = 2 ^ c /\
       forall i, Z.testbit (Z_of_byte b) i = (i =? c)).
Proof.
  split.
  - intros m c Hc. rewrite init_run.
    replace ((0 <=? c) && (c <=? 7)) with false.
    + eexists. split; [reflexivity|]. split; reflexivity.
    + symmetry. apply andb_false_iff.
      destruct Hc; [left; apply Z.leb_gt | right; apply Z.leb_gt]; lia.
  - intros mx ch s' m Hinit Hmux. rewrite init_run in Hinit.
    destruct mx as [m0|], ch as [c|]; try discriminate.
    + destruct ((0 <=? c) && (c <=? 7)) eqn:Hrange; [|discriminate].
      apply andb_true_iff in Hrange. destruct Hrange as [H0 H7].
      apply Z.leb_le in H0, H7.
      rewrite open_run_fresh in Hinit by reflexivity.
      cbn [kstate with_self] in Hinit.
      destruct (sys_open kernel bus (kstate s)) as [[fd|en] k1];
        [|discriminate].
      injection Hinit as <-. cbn in Hmux. injection Hmux as ->.
      exists c, (byte_of_Z (Z.shiftl 1 c)).
      split; [reflexivity|]. split; [reflexivity|]. split; [lia|].
      split; [reflexivity|]. split; [reflexivity|].
      rewrite Z.shiftl_1_l, byte_of_pow2 by lia.
      split; [reflexivity|]. intros i.
      rewrite Z.pow2_bits_eqb by lia. apply Z.eqb_sym.
    + rewrite open_run_fresh in Hinit by reflexivity.
      cbn [kstate with_self] in Hinit.
      destruct (sys_open kernel bus (kstate s)) as [[fd|en] k1];
        [|discriminate].
      injection Hinit as <-. discriminate Hmux.
Qed.

(** * More of the class *)

(** ** Opening and closing *)

Lemma open_run_again bus s old :
  _device (self s) = Some old ->
  open kernel bus s =
  match sys_open kernel bus (sys_close kernel old (kstate s)) with
  | (Ok fd, k1) =>
      (Returns tt,
       {| self := set_device (Some fd) (self s); sigalrm := sigalrm s;
          alarm := alarm s; kstate := k1;
          trace := trace s ++ [EClose old; EOpen bus (Ok fd)] |})
  | (Errno en, k1) =>
      (Raises (OSError en),
       {| self := set_device None (self s); sigalrm := sigalrm s;
          alarm := alarm s; kstate := k1;
          trace := trace s ++ [EClose old; EOpen bus (Errno en)] |})
  end.
Proof.
  intros Hdev. unfold open, close. unfold_prims. step. rewrite Hdev. step.
  rewrite Hdev. step.
  destruct (sys_open kernel bus (sys_close kernel old (kstate s)))
    as [[fd|en] k1]; step; rewrite <- app_assoc; reflexivity.
Qed.

(** X1.  [open] on a session that already holds a handle closes that
    descriptor first and then opens the requested bus.  If the open
    succeeds the session holds the new descriptor; if it fails the
    [OSError] propagates and the session is left without a handle.
    Nothing else of the object changes. *)
Theorem reopen_closes_previous_handle bus s old :
  _device (self s) = Some old ->
  exists r k1,
    sys_open kernel bus (sys_close kernel old (kstate s)) = (r, k1) /\
    trace (snd (open kernel bus s))
      = trace s ++ [EClose old; EOpen bus r] /\
    kstate (snd (open kernel bus s)) = k1 /\
    match r with
    | Ok fd =>
        fst (open kernel bus s) = Returns tt /\
        self (snd (open kernel bus s)) = set_device (Some fd) (self s)
    | Errno en =>
        fst (open kernel bus s) = Raises (OSError en) /\
        self (snd (open kernel bus s)) = set_device None (self s)
    end.
Proof.
  intros Hdev. rewrite (open_run_again bus s old Hdev).
  destruct (sys_open kernel bus (sys_close kernel old (kstate s)))
    as [[fd|en] k1]; eexists _, _; repeat split.
Qed.


(** ** Selecting the device *)

Lemma land_127 addr : Z.land addr 0x7F = addr mod 128.
Proof. change 0x7F with (Z.ones 7). now rewrite Z.land_ones by lia. Qed.

(** X3.  [_select_device] hands the kernel the low seven bits of the
    address: the argument of the ioctl is [addr mod 128], between 0 and
    127, so two addresses that differ by a multiple of 128 select the
    same device.  A refused selection propagates as [OSError].  Without
    a handle the call raises [AttributeError] and issues no ioctl; in
    verbose mode the line naming the device is printed first in every
    case. *)
Theorem select_device_masks_address s addr v :
  (forall fd,
     _device (self s) = Some fd ->
     exists r k1,
       0 <= addr mod 128 < 128 /\
       sys_ioctl kernel fd _I2C_DEVICE (addr mod 128) (kstate s) = (r, k1) /\
       _select_device kernel addr v s =
         (match r with
          | Ok _ => Returns tt
          | Errno en => Raises (OSError en)
          end,
          with_trace
            (trace s
             ++ (if v then [EPrint (SelectingDevice addr)] else [])
             ++ [EIoctl fd _I2C_DEVICE (addr mod 128) r])
            (with_kstate k1 s)) /\
       forall n,
         fst (_select_device kernel (addr + 128 * n) v s)
           = fst (_select_device kernel addr v s) /\
         kstate (snd (_select_device kernel (addr + 128 * n) v s))
           = kstate (snd (_select_device kernel addr v s))) /\
  (_device (self s) = None ->
   _select_device kernel addr v s =
     (Raises AttributeError,
      with_trace
        (trace s ++ (if v then [EPrint (SelectingDevice addr)] else []))
        s)).
Proof.
  assert (Hrun : forall a fd,
    _device (self s) = Some fd ->
    _select_device kernel a v s =
    let '(r, k1) := sys_ioctl kernel fd _I2C_DEVICE (a mod 128) (kstate s) in
    (match r with
     | Ok _ => Returns tt
     | Errno en => Raises (OSError en)
     end,
     with_trace
       (trace s ++ (if v then [EPrint (SelectingDevice a)] else [])
        ++ [EIoctl fd _I2C_DEVICE (a mod 128) r])
       (with_kstate k1 s))).
  { intros a fd Hdev. unfold _select_device. rewrite land_127.
    unfold_prims. step. destruct v; step; rewrite Hdev; step;
      destruct (sys_ioctl kernel fd _I2C_DEVICE (a mod 128) (kstate s))
        as [[[]|en] k1]; step; rewrite <- ?app_assoc; reflexivity. }
  split.
  - intros fd Hdev.
    destruct (sys_ioctl kernel fd _I2C_DEVICE (addr mod 128) (kstate s))
      as [r k1] eqn:Hsel.
    exists r, k1. split; [apply Z.mod_pos_bound; lia|].
    split; [reflexivity|]. split.
    + rewrite (Hrun addr fd Hdev), Hsel. reflexivity.
    + intros n. rewrite (Hrun addr fd Hdev), (Hrun (addr + 128 * n) fd Hdev).
      replace ((addr + 128 * n) mod 128) with (addr mod 128)
        by (rewrite Z.mul_comm, Z.mod_add by lia; reflexivity).
      rewrite Hsel. split; reflexivity.
  - intros Hdev. unfold _select_device. unfold_prims. step.
    destruct v; step; rewrite Hdev; step; rewrite ?app_nil_r;
      destruct s; reflexivity.
Qed.

(** ** The poll condition *)

(** X4.  The condition of the two poll loops, on an open session whose
    address selection goes through: the 1-byte read is compared with
    the target as it is (the round trip through [ord] and [to_bytes]
    gives the byte back), so the condition holds exactly when that
    byte differs from the target; a transfer that failed counts as the
    byte [0x00]; a read that yields no byte or more than one makes the
    condition raise [TypeError]. *)
Theorem poll_condition_compares_the_byte_read s fd m target k1 r k2 :
  _device (self s) = Some fd ->
  sys_ioctl kernel fd _I2C_DEVICE (Z.land m 0x7F) (kstate s) = (Ok tt, k1) ->
  sys_read kernel fd 1 k1 = (r, k2) ->
  (forall b,
     r = Done [b] ->
     fst (mux_disagrees kernel m target s)
       = Returns (negb (bytes_eqb [b] target))) /\
  (transfer_failed r = true ->
   fst (mux_disagrees kernel m target s)
     = Returns (negb (bytes_eqb [x00] target))) /\
  (forall bs,
     r = Done bs -> length bs <> 1%nat ->
     fst (mux_disagrees kernel m target s) = Raises TypeError) /\
  (forall u,
     fst (mux_disagrees kernel m target s) = Returns u ->
     u = true <-> read_value 1 r <> target).
Proof.
  intros Hdev Hsel Hrd.
  rewrite (mux_disagrees_run s fd m target Hdev), Hsel, Hrd.
  split; [|split; [|split]].
  - intros b ->. reflexivity.
  - destruct r as [bs|en|]; [discriminate| |]; reflexivity.
  - intros bs -> Hlen. cbn [read_value].
    destruct bs as [|b [|b' tl]]; try reflexivity. now contradiction Hlen.
  - intros u Hu. destruct (read_value 1 r) as [|b [|b' tl]];
      try discriminate.
    cbn [fst] in Hu. injection Hu as <-. split.
    + intros H. apply bytes_eqb_neq. now apply negb_true_iff.
    + intros H. apply negb_true_iff. now apply bytes_eqb_neq.
Qed.

(** ** Entering without a mux, or without a handle *)

Lemma enter_run_plain fuel s :
  mux (self s) = None \/ channel (self s) = None ->
  __enter__ kernel fuel s = (Returns tt, s).
Proof.
  intros Hplain. unfold __enter__. unfold bind at 1. unfold get_self.
  destruct Hplain as [-> | ->]; [reflexivity|].
  destruct (mux (self s)); reflexivity.
Qed.

Lemma enter_run_mux_closed fuel s m c :
  _device (self s) = None ->
  mux (self s) = Some m ->
  channel (self s) = Some c ->
  __enter__ kernel fuel s = (Raises (AssertionError not_open_msg), s).
Proof.
  intros Hdev Hmux Hch. unfold __enter__. unfold bind at 1. unfold get_self.
  rewrite Hmux, Hch. unfold bind.
  rewrite write_bytes_closed by exact Hdev. reflexivity.
Qed.

(** X6.  [__enter__] produces no traffic in two cases.  Without a mux
    (or without a channel) it returns at once and changes nothing,
    whether the session holds a handle or not.  With a mux but without
    a handle it raises the assertion error of the first [write_bytes]
    and changes nothing. *)
Theorem enter_without_traffic fuel s :
  (mux (self s) = None \/ channel (self s) = None ->
   __enter__ kernel fuel s = (Returns tt, s)) /\
  (forall m c,
     mux (self s) = Some m -> channel (self s) = Some c ->
     _device (self s) = None ->
     __enter__ kernel fuel s = (Raises (AssertionError not_open_msg), s)).
Proof.
  split.
  - apply enter_run_plain.
  - intros m c Hmux Hch Hdev. now apply (enter_run_mux_closed fuel s m c).
Qed.

(** X5.  A [with] block on a session without a mux, around a body that
    leaves it without one: the body runs on the state as it is, then
    the handle is closed, and the statement ends the way the body did,
    with its value or its exception; the fuel plays no part. *)
Theorem with_without_mux_runs_body_then_closes
  {A} fuel (body : @M K A) s :
  mux (self s) = None ->
  mux (self (snd (body s))) = None ->
  with_ kernel fuel body s =
    match body s with
    | (Returns a, s1) => (Returns (Some a), snd (close kernel s1))
    | (Raises e, s1) => (Raises e, snd (close kernel s1))
    | (NoReturn, s1) => (NoReturn, s1)
    | (OutOfFuel, s1) => (OutOfFuel, s1)
    end.
Proof.
  intros Hmux Hbody. unfold with_. unfold bind at 1.
  rewrite enter_run_plain by (left; exact Hmux).
  destruct (body s) as [[a|e| |] s1]; cbn [snd] in Hbody; try reflexivity;
    unfold bind; rewrite exit_run_plain by (left; exact Hbody);
    rewrite close_run; destruct (_device (self s1)); reflexivity.
Qed.

(** ** The constructor and the bus *)

(** X10.  [__init__] with a well-formed pairing (neither mux nor
    channel, or both with a channel from 0 to 7) opens the bus exactly
    once and does nothing else outside the object.  If the open
    succeeds the session holds the descriptor; if it fails the
    [OSError] propagates out of the constructor and no handle is held.
    The advisory lock is not touched. *)
Theorem init_opens_the_bus_once bus mx ch v s :
  (mx = None /\ ch = None) \/
  (exists m c, mx = Some m /\ ch = Some c /\ 0 <= c <= 7) ->
  exists r k1,
    sys_open kernel bus (kstate s) = (r, k1) /\
    trace (snd (__init__ kernel bus mx ch v s)) = trace s ++ [EOpen bus r] /\
    kstate (snd (__init__ kernel bus mx ch v s)) = k1 /\
    _locked (self (snd (__init__ kernel bus mx ch v s))) = _locked (self s) /\
    match r with
    | Ok fd =>
        fst (__init__ kernel bus mx ch v s) = Returns tt /\
        _device (self (snd (__init__ kernel bus mx ch v s))) = Some fd
    | Errno en =>
        fst (__init__ kernel bus mx ch v s) = Raises (OSError en) /\
        _device (self (snd (__init__ kernel bus mx ch v s))) = None
    end.
Proof.
  intros Hok. rewrite init_run.
  assert (Hinit :
    exists o,
      _device o = None /\ _locked o = _locked (self s) /\
      match mx, ch with
      | Some m, Some c =>
          if (0 <=? c) && (c <=? 7)
          then open kernel bus
                 (with_self
                    {| mux := Some m;
                       channel := Some [byte_of_Z (Z.shiftl 1 c)];
                       verbose := v; _device := None;
                       _locked := _locked (self s) |} s)
          else (Raises ValueError, with_self (set_mux (Some m) (self s)) s)
      | None, None =>
          open kernel bus
            (with_self
               {| mux := None; channel := None; verbose := v;
                  _device := None; _locked := _locked (self s) |} s)
      | _, _ => (Raises (AssertionError EmptyString), s)
      end = open kernel bus (with_self o s)).
  { destruct Hok as [[-> ->] | (m & c & -> & -> & Hc)].
    - eexists. split; [|split]; [| |reflexivity]; reflexivity.
    - replace ((0 <=? c) && (c <=? 7)) with true.
      + eexists. split; [|split]; [| |reflexivity]; reflexivity.
      + symmetry. apply andb_true_iff.
        split; apply Z.leb_le; lia. }
  destruct Hinit as (o & Hdev & Hlock & ->).
  rewrite open_run_fresh by exact Hdev. cbn [kstate with_self].
  destruct (sys_open kernel bus (kstate s)) as [[fd|en] k1];
    eexists _, _; cbn [fst snd self trace kstate _device _locked set_device
                       with_self];
    repeat split; assumption.
Qed.

(** ** What a transfer leaves behind *)

(** X8.  No call to [read_bytes], [write_bytes], [__enter__] or
    [__exit__] blocks for ever, whatever the signal state it starts
    from: a transfer is attempted only with the alarm armed and
    [handle_timeout] installed, so a stalled transfer is always
    interrupted.  A transfer that was attempted leaves
    [handle_timeout] installed as the SIGALRM handler; the previous
    disposition is not restored. *)
Theorem transfers_never_hang s addr number buf v :
  fst (read_bytes kernel addr number s) <> NoReturn /\
  fst (write_bytes kernel addr buf v s) <> NoReturn /\
  (forall fuel exc,
     fst (__enter__ kernel fuel s) <> NoReturn /\
     fst (__exit__ kernel fuel exc s) <> NoReturn) /\
  (forall fd k1,
     _device (self s) = Some fd ->
     sys_ioctl kernel fd _I2C_DEVICE (Z.land addr 0x7F) (kstate s)
       = (Ok tt, k1) ->
     sigalrm (snd (read_bytes kernel addr number s)) = HandleTimeout /\
     sigalrm (snd (write_bytes kernel addr buf v s)) = HandleTimeout).
Proof.
  split; [|split; [|split]].
  - destruct (_device (self s)) as [fd|] eqn:Hdev.
    + rewrite (read_bytes_run s fd) by exact Hdev.
      destruct (sys_ioctl kernel fd _I2C_DEVICE (Z.land addr 127) (kstate s))
        as [[[]|en] k1]; [|discriminate].
      destruct (sys_read kernel fd number k1); discriminate.
    + rewrite read_bytes_closed by exact Hdev. discriminate.
  - destruct (_device (self s)) as [fd|] eqn:Hdev.
    + rewrite (write_bytes_run s fd) by exact Hdev.
      destruct (sys_ioctl kernel fd _I2C_DEVICE (Z.land addr 127) (kstate s))
        as [[[]|en] k1]; [|discriminate].
      destruct (sys_write kernel fd buf k1); discriminate.
    + rewrite write_bytes_closed by exact Hdev. discriminate.
  - intros fuel exc. split.
    + destruct (mux (self s)) as [m|] eqn:Hmux;
        [destruct (channel (self s)) as [c|] eqn:Hch|].
      * destruct (_device (self s)) as [fd|] eqn:Hdev.
        -- destruct (handshake_run fuel s fd m m c (verbose (self s)) Hdev)
             as (out & s' & t & Hrun & _ & _ & Hview).
           unfold __enter__. unfold bind at 1. unfold get_self.
           rewrite Hmux, Hch, Hrun. cbn [fst]. intros ->. exact Hview.
        -- rewrite (enter_run_mux_closed fuel s m c) by assumption.
           discriminate.
      * rewrite enter_run_plain by (right; exact Hch). discriminate.
      * rewrite enter_run_plain by (left; exact Hmux). discriminate.
    + destruct (exit_run fuel exc s)
        as (out & s' & t & Hrun & _ & _ & _ & Hno).
      rewrite Hrun. cbn [fst]. intros ->.
      assert (H : forall b : bool, NoReturn <> Returns b) by discriminate.
      destruct (Hno H) as (_ & Hnr & _). now apply Hnr.
  - intros fd k1 Hdev Hsel.
    rewrite (read_bytes_run s fd), (write_bytes_run s fd) by exact Hdev.
    rewrite Hsel.
    destruct (sys_read kernel fd number k1), (sys_write kernel fd buf k1).
    split; reflexivity.
Qed.

(** ** What the methods leave alone *)

Section Keeps.

Context {X : Type} (p : SMBasic -> X).

Lemma keeps_ret {A} (a : A) : keeps (K := K) p (ret a).
Proof. intros s. reflexivity. Qed.

Lemma keeps_raise {A} e : keeps (K := K) p (raise (A := A) e).
Proof. intros s. reflexivity. Qed.

Lemma keeps_out_of_fuel {A} : keeps (K := K) p (out_of_fuel (A := A)).
Proof. intros s. reflexivity. Qed.

Lemma keeps_bind {A B} (m : @M K A) (f : A -> @M K B) :
  keeps p m -> (forall a, keeps p (f a)) -> keeps p (bind m f).
Proof.
  intros Hm Hf s. unfold bind. specialize (Hm s).
  destruct (m s) as [[a|e| |] s1]; cbn [snd] in *; try exact Hm.
  now rewrite Hf.
Qed.

Lemma keeps_when b (m : @M K unit) : keeps p m -> keeps p (when b m).
Proof. destruct b; [auto | intros _ s; reflexivity]. Qed.

Lemma keeps_lift {A} (r : pyres A) : keeps (K := K) p (lift r).
Proof. destruct r; intros s; reflexivity. Qed.

Lemma keeps_assert c msg : keeps (K := K) p (assert_ c msg).
Proof. destruct c; intros s; reflexivity. Qed.

Lemma keeps_get_self : keeps (K := K) p get_self.
Proof. intros s. reflexivity. Qed.

Lemma keeps_modify_self f :
  (forall o, p (f o) = p o) -> keeps (K := K) p (modify_self f).
Proof. intros Hf s. apply Hf. Qed.

Lemma keeps_emit e : keeps (K := K) p (emit e).
Proof. intros s. reflexivity. Qed.

Lemma keeps_signal_signal h : keeps (K := K) p (signal_signal h).
Proof. intros s. reflexivity. Qed.

Lemma keeps_signal_alarm t : keeps (K := K) p (signal_alarm t).
Proof. intros s. reflexivity. Qed.

Lemma keeps_builtin_open bus : keeps p (builtin_open kernel bus).
Proof.
  intros s. unfold builtin_open.
  destruct (sys_open kernel bus (kstate s)) as [[fd|en] k]; reflexivity.
Qed.

Lemma keeps_file_close fd : keeps p (file_close kernel fd).
Proof. intros s. reflexivity. Qed.

Lemma keeps_fileno : keeps (K := K) p fileno.
Proof. intros s. unfold fileno. destruct (_device (self s)); reflexivity. Qed.

Lemma keeps_ioctl fd request arg : keeps p (ioctl kernel fd request arg).
Proof.
  intros s. unfold ioctl.
  destruct (sys_ioctl kernel fd request arg (kstate s)) as [[u|en] k];
    reflexivity.
Qed.

Lemma keeps_deliver_sigalrm {A} :
  keeps (K := K) p (deliver_sigalrm (A := A)).
Proof.
  intros s. unfold deliver_sigalrm.
  destruct (alarm s), (sigalrm s); reflexivity.
Qed.

Lemma keeps_device_read number : keeps p (device_read kernel number).
Proof.
  apply keeps_bind; [apply keeps_fileno|].
  intros fd s. cbv beta.
  destruct (sys_read kernel fd number (kstate s)) as [r k].
  destruct r; try reflexivity.
  cbv zeta. now rewrite (keeps_deliver_sigalrm (A := bytes)).
Qed.

Lemma keeps_device_write buf : keeps p (device_write kernel buf).
Proof.
  apply keeps_bind; [apply keeps_fileno|].
  intros fd s. cbv beta.
  destruct (sys_write kernel fd buf (kstate s)) as [r k].
  destruct r; try reflexivity.
  cbv zeta. now rewrite (keeps_deliver_sigalrm (A := nat)).
Qed.

Lemma keeps_try_except {A} (body : @M K A) handlers :
  keeps p body ->
  (forall e h, handlers e = Some h -> keeps p h) ->
  keeps p (try_except body handlers).
Proof.
  intros Hb Hh s. unfold try_except. specialize (Hb s).
  destruct (body s) as [[a|e| |] s1]; cbn [snd] in *; try exact Hb.
  destruct (handlers e) as [h|] eqn:He; [|exact Hb].
  now rewrite (Hh e h He).
Qed.

Lemma keeps_try_finally {A} (body : @M K A) fin :
  keeps p body -> keeps p fin -> keeps p (try_finally body fin).
Proof.
  intros Hb Hf s. unfold try_finally. specialize (Hb s).
  destruct (body s) as [[a|e| |] s1]; cbn [snd] in *; try exact Hb;
    specialize (Hf s1);
    destruct (fin s1) as [[u|e'| |] s2]; cbn [snd] in *; congruence.
Qed.

Lemma keeps_while fuel (cond : @M K bool) (body : @M K unit) :
  keeps p cond -> keeps p body -> keeps p (while_ fuel cond body).
Proof.
  intros Hc Hb. induction fuel as [|fuel IH]; cbn [while_].
  - apply keeps_out_of_fuel.
  - apply keeps_bind; [exact Hc|]. intros [|].
    + apply keeps_bind; auto.
    + apply keeps_ret.
Qed.

End Keeps.

Ltac keeps_step :=
  lazymatch goal with
  | |- keeps _ (bind _ _) => apply keeps_bind; [|intros ?]
  | |- keeps _ (try_finally _ _) => apply keeps_try_finally
  | |- keeps _ (try_except _ _) =>
      apply keeps_try_except; [|intros [] ? [=]; subst]
  | |- keeps _ (while_ _ _ _) => apply keeps_while
  | |- keeps _ (when _ _) => apply keeps_when
  | |- keeps _ (ret _) => apply keeps_ret
  | |- keeps _ (raise _) => apply keeps_raise
  | |- keeps _ (lift _) => apply keeps_lift
  | |- keeps _ (assert_ _ _) => apply keeps_assert
  | |- keeps _ get_self => apply keeps_get_self
  | |- keeps _ (modify_self _) =>
      apply keeps_modify_self; intros ?; reflexivity
  | |- keeps _ (emit _) => apply keeps_emit
  | |- keeps _ (print _) => apply keeps_emit
  | |- keeps _ (sleep _) => apply keeps_emit
  | |- keeps _ (signal_signal _) => apply keeps_signal_signal
  | |- keeps _ (signal_alarm _) => apply keeps_signal_alarm
  | |- keeps _ (builtin_open _ _) => apply keeps_builtin_open
  | |- keeps _ (file_close _ _) => apply keeps_file_close
  | |- keeps _ fileno => apply keeps_fileno
  | |- keeps _ (ioctl _ _ _ _) => apply keeps_ioctl
  | |- keeps _ (device_read _ _) => apply keeps_device_read
  | |- keeps _ (device_write _ _) => apply keeps_device_write
  | |- keeps _ (match ?x with _ => _ end) => destruct x
  | |- keeps _ _ => match goal with H : _ |- _ => apply H end
  end.

Ltac keeps_all := repeat keeps_step.

Lemma keeps_config_close : keeps config (close kernel).
Proof. unfold close. keeps_all. Qed.

Lemma keeps_config_open bus : keeps config (open kernel bus).
Proof. unfold open. pose proof keeps_config_close. keeps_all. Qed.

Lemma keeps_config_select_device addr v :
  keeps config (_select_device kernel addr v).
Proof. unfold _select_device. keeps_all. Qed.

Lemma keeps_config_read_bytes addr number :
  keeps config (read_bytes kernel addr number).
Proof.
  unfold read_bytes. pose proof keeps_config_select_device. keeps_all.
Qed.

Lemma keeps_config_write_bytes addr buf v :
  keeps config (write_bytes kernel addr buf v).
Proof.
  unfold write_bytes. pose proof keeps_config_select_device. keeps_all.
Qed.

Lemma keeps_config_mux_disagrees m target :
  keeps config (mux_disagrees kernel m target).
Proof.
  unfold mux_disagrees. pose proof keeps_config_read_bytes. keeps_all.
Qed.

Lemma keeps_config_enter fuel : keeps config (__enter__ kernel fuel).
Proof.
  unfold __enter__.
  pose proof keeps_config_write_bytes.
  pose proof keeps_config_mux_disagrees.
  keeps_all.
Qed.

Lemma keeps_config_exit fuel exc : keeps config (__exit__ kernel fuel exc).
Proof.
  unfold __exit__.
  pose proof keeps_config_write_bytes.
  pose proof keeps_config_mux_disagrees.
  pose proof keeps_config_close.
  keeps_all.
Qed.

Lemma keeps_config_try_lock : keeps (K := K) config try_lock.
Proof. unfold try_lock. keeps_all. Qed.

Lemma keeps_config_unlock : keeps (K := K) config unlock.
Proof. unfold unlock. keeps_all. Qed.

Lemma after_method_config c s :
  config (self (after_method kernel c s)) = config (self s).
Proof.
  destruct c as [[]|]; cbn [after_method after_call].
  - apply keeps_config_try_lock.
  - apply keeps_config_open.
  - apply keeps_config_close.
  - apply keeps_config_read_bytes.
  - apply keeps_config_write_bytes.
  - apply keeps_config_enter.
  - apply keeps_config_exit.
  - apply keeps_config_unlock.
Qed.

Lemma after_methods_config cs : forall s,
  config (self (after_methods kernel cs s)) = config (self s).
Proof.
  unfold after_methods.
  induction cs as [|c cs IH]; intros s; cbn [fold_left]; [reflexivity|].
  rewrite IH. apply after_method_config.
Qed.

(** X7.  The configuration of a session is fixed at construction.
    After [__init__] has returned, and through any sequence of calls
    to the methods of the class ([try_lock], [unlock], [open],
    [close], [read_bytes], [write_bytes], [__enter__], [__exit__]),
    whatever their outcomes, [mux] and [verbose] are the constructor's
    arguments and [channel] is the mask built from its argument; in
    particular a mux is configured exactly when a channel mask is. *)
Theorem configuration_is_fixed_at_construction bus mx ch v s0 s1 cs :
  __init__ kernel bus mx ch v s0 = (Returns tt, s1) ->
  let s := after_methods kernel cs s1 in
  mux (self s) = mx /\
  verbose (self s) = v /\
  channel (self s)
    = match ch with
      | Some c => Some [byte_of_Z (Z.shiftl 1 c)]
      | None => None
      end /\
  is_not_None (mux (self s)) = is_not_None (channel (self s)).
Proof.
  intros Hinit. cbv zeta.
  assert (Hcfg : config (self s1)
                 = (mx,
                    match ch with
                    | Some c => Some [byte_of_Z (Z.shiftl 1 c)]
                    | None => None
                    end, v) /\
                 is_not_None mx = is_not_None ch).
  { rewrite init_run in Hinit.
    destruct mx as [m|], ch as [c|]; try discriminate.
    - destruct ((0 <=? c) && (c <=? 7)); [|discriminate].
      rewrite open_run_fresh in Hinit by reflexivity.
      cbn [kstate with_self] in Hinit.
      destruct (sys_open kernel bus (kstate s0)) as [[fd|en] k1];
        [|discriminate].
      injection Hinit as <-. split; reflexivity.
    - rewrite open_run_fresh in Hinit by reflexivity.
      cbn [kstate with_self] in Hinit.
      destruct (sys_open kernel bus (kstate s0)) as [[fd|en] k1];
        [|discriminate].
      injection Hinit as <-. split; reflexivity. }
  destruct Hcfg as [Hcfg Hpair].
  pose proof (after_methods_config cs s1) as Hkeep.
  rewrite Hcfg in Hkeep. unfold config in Hkeep.
  injection Hkeep as -> -> ->.
  repeat split. rewrite Hpair. destruct ch; reflexivity.
Qed.

(** ** Verbose mode *)

Lemma hush_app t1 t2 : hush (t1 ++ t2) = hush t1 ++ hush t2.
Proof. apply filter_app. Qed.

Lemma hush_select_events fd addr v r :
  hush (select_events fd addr v r) = select_events fd addr false r.
Proof. destruct v; reflexivity. Qed.

Lemma hush_read_events o fd addr number r :
  hush (read_events o fd addr number r)
  = read_events (set_verbose false o) fd addr number r.
Proof. destruct o as [? ? [|] ? ?], r; reflexivity. Qed.

Lemma hush_write_events o fd addr buf v w :
  hush (write_events o fd addr buf v w)
  = write_events (set_verbose false o) fd addr buf false w.
Proof. destruct v, w; reflexivity. Qed.

Section Transports.

Context (g : @State K -> @State K).

Lemma transports_ret {A} (a : A) : transports g (ret a) (ret a).
Proof. intros s. reflexivity. Qed.

Lemma transports_lift {A} (r : pyres A) : transports g (lift r) (lift r).
Proof. destruct r; intros s; reflexivity. Qed.

Lemma transports_bind {A B} (m m' : @M K A) (f f' : A -> @M K B) :
  transports g m m' -> (forall a, transports g (f a) (f' a)) ->
  transports g (bind m f) (bind m' f').
Proof.
  intros Hm Hf s. unfold bind. rewrite Hm.
  destruct (m s) as [[a|e| |] s1]; cbn [fst snd]; try reflexivity.
  apply Hf.
Qed.

Lemma transports_while fuel (cond cond' : @M K bool)
  (body body' : @M K unit) :
  transports g cond cond' -> transports g body body' ->
  transports g (while_ fuel cond body) (while_ fuel cond' body').
Proof.
  intros Hc Hb. induction fuel as [|fuel IH]; cbn [while_].
  - intros s. reflexivity.
  - apply transports_bind; [exact Hc|]. intros [|].
    + apply transports_bind; auto.
    + apply transports_ret.
Qed.

End Transports.

Lemma muted_ret {A} (a : A) : muted (K := K) (ret a) (ret a).
Proof. apply transports_ret. Qed.

Lemma muted_lift {A} (r : pyres A) : muted (K := K) (lift r) (lift r).
Proof. apply transports_lift. Qed.

Lemma muted_bind {A B} (m m' : @M K A) (f f' : A -> @M K B) :
  muted m m' -> (forall a, muted (f a) (f' a)) ->
  muted (bind m f) (bind m' f').
Proof. apply transports_bind. Qed.

Lemma muted_while fuel (cond cond' : @M K bool) (body body' : @M K unit) :
  muted cond cond' -> muted body body' ->
  muted (while_ fuel cond body) (while_ fuel cond' body').
Proof. apply transports_while. Qed.

Lemma muted_sleep ms : muted (K := K) (sleep ms) (sleep ms).
Proof.
  intros s. unfold sleep, emit, mute. cbn. now rewrite hush_app.
Qed.

Lemma muted_read_bytes addr number :
  muted (read_bytes kernel addr number) (read_bytes kernel addr number).
Proof.
  intros s. destruct (_device (self s)) as [fd|] eqn:Hdev.
  - rewrite (read_bytes_run (mute s) fd) by exact Hdev.
    rewrite (read_bytes_run s fd) by exact Hdev.
    cbn [mute kstate with_trace with_self].
    destruct (sys_ioctl kernel fd _I2C_DEVICE (Z.land addr 127) (kstate s))
      as [[[]|e] k1].
    + destruct (sys_read kernel fd number k1) as [r k2].
      unfold mute. cbn. now rewrite hush_app, hush_read_events.
    + unfold mute. cbn. now rewrite hush_app, hush_select_events.
  - rewrite (read_bytes_closed (mute s)) by exact Hdev.
    now rewrite (read_bytes_closed s) by exact Hdev.
Qed.

Lemma muted_write_bytes addr buf v :
  muted (write_bytes kernel addr buf v) (write_bytes kernel addr buf false).
Proof.
  intros s. destruct (_device (self s)) as [fd|] eqn:Hdev.
  - rewrite (write_bytes_run (mute s) fd) by exact Hdev.
    rewrite (write_bytes_run s fd) by exact Hdev.
    cbn [mute kstate with_trace with_self].
    destruct (sys_ioctl kernel fd _I2C_DEVICE (Z.land addr 127) (kstate s))
      as [[[]|e] k1].
    + destruct (sys_write kernel fd buf k1) as [r k2].
      unfold mute. cbn. now rewrite hush_app, hush_write_events.
    + unfold mute. cbn. now rewrite hush_app, hush_select_events.
  - rewrite (write_bytes_closed (mute s)) by exact Hdev.
    now rewrite (write_bytes_closed s) by exact Hdev.
Qed.

Lemma muted_mux_disagrees m target :
  muted (mux_disagrees kernel m target) (mux_disagrees kernel m target).
Proof.
  unfold mux_disagrees.
  apply muted_bind; [apply muted_read_bytes|]. intros r.
  apply muted_bind; [apply muted_lift|]. intros v.
  apply muted_bind; [apply muted_lift|]. intros b.
  apply muted_ret.
Qed.

Lemma muted_handshake fuel a0 m target v :
  muted
    (write_bytes kernel a0 target v ;;
     while_ fuel (mux_disagrees kernel m target)
       (sleep 50 ;; write_bytes kernel m target v))
    (write_bytes kernel a0 target false ;;
     while_ fuel (mux_disagrees kernel m target)
       (sleep 50 ;; write_bytes kernel m target false)).
Proof.
  apply muted_bind; [apply muted_write_bytes|]. intros _.
  apply muted_while; [apply muted_mux_disagrees|].
  apply muted_bind; [apply muted_sleep|]. intros _.
  apply muted_write_bytes.
Qed.

Lemma muted_close : muted (close kernel) (close kernel).
Proof.
  intros s. rewrite !close_run.
  cbn [mute self with_trace with_self set_verbose _device].
  destruct (_device (self s)) as [fd|]; [|reflexivity].
  unfold mute. cbn. now rewrite hush_app.
Qed.

Lemma muted_enter fuel : muted (__enter__ kernel fuel) (__enter__ kernel fuel).
Proof.
  intros s. unfold __enter__. rewrite !bind_get_self.
  cbn [mute self with_trace with_self set_verbose mux channel verbose].
  destruct (mux (self s)) as [m|]; [|reflexivity].
  destruct (channel (self s)) as [c|]; [|reflexivity].
  apply (muted_handshake fuel m m c (verbose (self s)) s).
Qed.

Lemma muted_exit fuel exc :
  muted (__exit__ kernel fuel exc) (__exit__ kernel fuel exc).
Proof.
  assert (Hrest : forall u : unit,
            muted (K := K) (close kernel ;; ret false)
              (close kernel ;; ret false)).
  { intros _. apply muted_bind; [apply muted_close|]. intros _.
    apply muted_ret. }
  intros s. unfold __exit__. rewrite !bind_get_self.
  cbn [mute self with_trace with_self set_verbose mux channel verbose].
  generalize (verbose (self s)). intros v.
  destruct (mux (self s)) as [m|];
    [destruct (channel (self s)) as [c|]|].
  - exact (muted_bind _ _ _ _ (muted_handshake fuel _ m _ v) Hrest s).
  - exact (muted_bind _ _ _ _ (muted_ret tt) Hrest s).
  - exact (muted_bind _ _ _ _ (muted_ret tt) Hrest s).
Qed.

Lemma bus_view_hush t : bus_view (hush t) = bus_view t.
Proof.
  unfold bus_view, hush. induction t as [|e t IH]; [reflexivity|].
  cbn [filter]. destruct e as [| | | | | | | [] |]; cbn; now rewrite ?IH.
Qed.

(** X9.  Verbose mode only adds lines to what is printed.  Run with
    [verbose] off on the muted state, [read_bytes], [write_bytes],
    [__enter__], [__exit__] and [close] have the outcome they have in
    the state itself (the same value or exception) and end in the
    muted final state: the same handle, kernel state, signal
    disposition and lock, and the same trace without the lines
    "selecting device", "read bytes" and "writing bytes"; the
    diagnostics of failed transfers are printed in both modes, and
    the bus sees the same traffic. *)
Theorem verbose_only_adds_lines fuel exc addr number buf v s :
  read_bytes kernel addr number (mute s)
  = (fst (read_bytes kernel addr number s),
     mute (snd (read_bytes kernel addr number s))) /\
  write_bytes kernel addr buf false (mute s)
  = (fst (write_bytes kernel addr buf v s),
     mute (snd (write_bytes kernel addr buf v s))) /\
  __enter__ kernel fuel (mute s)
  = (fst (__enter__ kernel fuel s), mute (snd (__enter__ kernel fuel s))) /\
  __exit__ kernel fuel exc (mute s)
  = (fst (__exit__ kernel fuel exc s),
     mute (snd (__exit__ kernel fuel exc s))) /\
  close kernel (mute s)
  = (fst (close kernel s), mute (snd (close kernel s))) /\
  (forall s', bus_view (trace (mute s')) = bus_view (trace s')) /\
  (forall s' l,
     chatter (EPrint l) = false ->
     In (EPrint l) (trace s') -> In (EPrint l) (trace (mute s'))).
Proof.
  split; [apply muted_read_bytes|].
  split; [apply muted_write_bytes|].
  split; [apply muted_enter|].
  split; [apply muted_exit|].
  split; [apply muted_close|].
  split.
  - intros s'. apply bus_view_hush.
  - intros s' l Hl Hin. cbn [mute trace with_trace]. unfold hush.
    apply filter_In. split; [exact Hin|]. now rewrite Hl.
Qed.

(** ** A bus that does not answer *)

(** X11.  [__exit__] takes a poll that failed for a mux that is
    unlocked.  On an open session with a mux, once the zero byte has
    gone out to [0x70] and the address of the mux was selected for the
    poll, a read that times out or fails with an I/O error is handed
    to the loop as the byte [0x00], which is the value the loop waits
    for: just as after a read that really yields [0x00], [__exit__]
    leaves the loop at this first poll, without sleeping or writing
    again, closes the handle and returns [False]. *)
Theorem exit_takes_a_failed_poll_for_unlocked
  fuel exc s fd m c k1 w k2 k3 r k4 :
  _device (self s) = Some fd ->
  mux (self s) = Some m ->
  channel (self s) = Some c ->
  sys_ioctl kernel fd _I2C_DEVICE (Z.land 0x70 0x7F) (kstate s)
    = (Ok tt, k1) ->
  sys_write kernel fd [x00] k1 = (w, k2) ->
  sys_ioctl kernel fd _I2C_DEVICE (Z.land m 0x7F) k2 = (Ok tt, k3) ->
  sys_read kernel fd 1 k3 = (r, k4) ->
  transfer_failed r = true \/ r = Done [x00] ->
  __exit__ kernel (S fuel) exc s
  = (Returns false,
     {| self := set_device None (self s);
        sigalrm := HandleTimeout;
        alarm := None;
        kstate := sys_close kernel fd k4;
        trace := trace s
                 ++ write_events (self s) fd 0x70 [x00] (verbose (self s)) w
                 ++ read_events (self s) fd m 1 r
                 ++ [EClose fd] |}).
Proof.
  intros Hdev Hmux Hch Hsel0 Hw Hsel Hr Hzero.
  assert (Hval : read_value 1 r = [x00]).
  { destruct Hzero as [Hf | ->]; [|reflexivity].
    destruct r; [discriminate| |]; reflexivity. }
  unfold __exit__. rewrite bind_get_self. rewrite Hmux, Hch.
  change _MUX_UNLOCK_REGISTER with [x00].
  unfold bind at 1. unfold bind at 1.
  rewrite (write_bytes_run s fd) by exact Hdev.
  rewrite Hsel0, Hw.
  rewrite while_unfold.
  rewrite (mux_disagrees_run _ fd) by exact Hdev.
  cbn [kstate]. rewrite Hsel, Hr, Hval.
  cbn [bytes_eqb negb].
  change (negb (bytes_eqb [x00] [x00])) with false. cbv iota beta.
  unfold bind. rewrite close_run. cbn [self _device]. rewrite Hdev.
  unfold ret. cbn [self sigalrm alarm kstate trace].
  rewrite <- !app_assoc. reflexivity.
Qed.

Lemma poll_forever fd m c v (Dead : K -> Prop) :
  (forall k arg,
     Dead k ->
     exists k', sys_ioctl kernel fd _I2C_DEVICE arg k = (Ok tt, k') /\
                Dead k') ->
  (forall k buf,
     Dead k ->
     exists w k', sys_write kernel fd buf k = (w, k') /\ Dead k') ->
  (forall k,
     Dead k ->
     exists r k', sys_read kernel fd 1 k = (r, k') /\
                  poll_miss c r /\ Dead k') ->
  forall fuel s,
    _device (self s) = Some fd ->
    Dead (kstate s) ->
    fst (while_ fuel (mux_disagrees kernel m c)
           (sleep 50 ;; write_bytes kernel m c v) s) = OutOfFuel.
Proof.
  intros Hioctl Hwrite Hread.
  induction fuel as [|fuel IH]; intros s Hdev Hdead; [reflexivity|].
  rewrite while_unfold.
  rewrite (mux_disagrees_run s fd) by exact Hdev.
  destruct (Hioctl _ (Z.land m 0x7F) Hdead) as (k1 & -> & Hd1).
  destruct (Hread _ Hd1) as (r & k2 & -> & [Hlen Hne] & Hd2).
  destruct (read_value 1 r) as [|b [|b' tl]]; try discriminate.
  apply bytes_eqb_neq in Hne. rewrite Hne. cbn [negb].
  rewrite (retry_body_run _ fd) by exact Hdev.
  cbn [kstate].
  destruct (Hioctl _ (Z.land m 0x7F) Hd2) as (k3 & -> & Hd3).
  destruct (Hwrite _ c Hd3) as (w & k4 & -> & Hd4).
  apply IH; [exact Hdev | exact Hd4].
Qed.


(** X13.  [__enter__] has no bound on its retries.  Take an open
    session with a mux and a set of kernel states ([Dead]) in which
    the address selections go through, the writes do whatever they
    do, and no 1-byte read yields the channel mask.  Started in such
    a state, [__enter__] does not return, whatever number of polls it
    is given; a bus whose reads all fail is such a bus as soon as the
    mask is not the zero byte, which holds for every mask [__init__]
    builds. *)
Theorem enter_polls_forever_on_a_dead_mux s fd m c (Dead : K -> Prop) :
  _device (self s) = Some fd ->
  mux (self s) = Some m ->
  channel (self s) = Some c ->
  Dead (kstate s) ->
  (forall k arg,
     Dead k ->
     exists k', sys_ioctl kernel fd _I2C_DEVICE arg k = (Ok tt, k') /\
                Dead k') ->
  (forall k buf,
     Dead k ->
     exists w k', sys_write kernel fd buf k = (w, k') /\ Dead k') ->
  (forall k,
     Dead k ->
     exists r k', sys_read kernel fd 1 k = (r, k') /\
                  poll_miss c r /\ Dead k') ->
  (forall fuel, fst (__enter__ kernel fuel s) = OutOfFuel) /\
  (forall r, transfer_failed r = true -> c <> [x00] -> poll_miss c r) /\
  (forall ch, 0 <= ch <= 7 -> [byte_of_Z (Z.shiftl 1 ch)] <> [x00]).
Proof.
  intros Hdev Hmux Hch Hdead Hioctl Hwrite Hread.
  split; [|split].
  - intros fuel. unfold __enter__. rewrite bind_get_self, Hmux, Hch.
    unfold bind at 1.
    rewrite (write_bytes_run s fd) by exact Hdev.
    destruct (Hioctl _ (Z.land m 0x7F) Hdead) as (k1 & -> & Hd1).
    destruct (Hwrite _ c Hd1) as (w & k2 & -> & Hd2).
    apply (poll_forever fd m c _ Dead Hioctl Hwrite Hread);
      [exact Hdev | exact Hd2].
  - intros r Hfail Hc. unfold poll_miss.
    destruct r; [discriminate| |]; cbn [read_value bytearray_zeros repeat];
      split; try reflexivity; congruence.
  - intros ch Hrange Heq.
    assert (ch = 0 \/ ch = 1 \/ ch = 2 \/ ch = 3 \/ ch = 4 \/ ch = 5
            \/ ch = 6 \/ ch = 7) as Hcases by lia.
    repeat (destruct Hcases as [-> | Hcases]; [discriminate Heq|]).
    subst ch. discriminate Heq.
Qed.

(** ** The lock and the bus *)

Lemma relock_read_bytes b addr number :
  transports (relock b) (read_bytes kernel addr number)
    (read_bytes kernel addr number).
Proof.
  intros s. destruct (_device (self s)) as [fd|] eqn:Hdev.
  - rewrite (read_bytes_run (relock b s) fd) by exact Hdev.
    rewrite (read_bytes_run s fd) by exact Hdev.
    cbn [relock kstate with_self].
    destruct (sys_ioctl kernel fd _I2C_DEVICE (Z.land addr 127) (kstate s))
      as [[[]|e] k1]; [|reflexivity].
    destruct (sys_read kernel fd number k1) as [r k2]. reflexivity.
  - rewrite (read_bytes_closed (relock b s)) by exact Hdev.
    now rewrite (read_bytes_closed s) by exact Hdev.
Qed.

Lemma relock_write_bytes b addr buf v :
  transports (relock b) (write_bytes kernel addr buf v)
    (write_bytes kernel addr buf v).
Proof.
  intros s. destruct (_device (self s)) as [fd|] eqn:Hdev.
  - rewrite (write_bytes_run (relock b s) fd) by exact Hdev.
    rewrite (write_bytes_run s fd) by exact Hdev.
    cbn [relock kstate with_self].
    destruct (sys_ioctl kernel fd _I2C_DEVICE (Z.land addr 127) (kstate s))
      as [[[]|e] k1]; [|reflexivity].
    destruct (sys_write kernel fd buf k1) as [r k2]. reflexivity.
  - rewrite (write_bytes_closed (relock b s)) by exact Hdev.
    now rewrite (write_bytes_closed s) by exact Hdev.
Qed.

Lemma relock_close b : transports (relock b) (close kernel) (close kernel).
Proof.
  intros s. rewrite !close_run.
  cbn [relock self with_self set_locked _device].
  destruct (_device (self s)) as [fd|]; reflexivity.
Qed.

Lemma relock_open b bus :
  transports (relock b) (open kernel bus) (open kernel bus).
Proof.
  intros s. destruct (_device (self s)) as [old|] eqn:Hdev.
  - rewrite (open_run_again bus (relock b s) old) by exact Hdev.
    rewrite (open_run_again bus s old) by exact Hdev.
    cbn [relock kstate with_self].
    destruct (sys_open kernel bus (sys_close kernel old (kstate s)))
      as [[fd|en] k1]; reflexivity.
  - rewrite (open_run_fresh bus (relock b s)) by exact Hdev.
    rewrite (open_run_fresh bus s) by exact Hdev.
    cbn [relock kstate with_self].
    destruct (sys_open kernel bus (kstate s)) as [[fd|en] k1]; reflexivity.
Qed.

Lemma relock_handshake b fuel a0 m target v :
  transports (relock b)
    (write_bytes kernel a0 target v ;;
     while_ fuel (mux_disagrees kernel m target)
       (sleep 50 ;; write_bytes kernel m target v))
    (write_bytes kernel a0 target v ;;
     while_ fuel (mux_disagrees kernel m target)
       (sleep 50 ;; write_bytes kernel m target v)).
Proof.
  apply transports_bind; [apply relock_write_bytes|]. intros _.
  apply transports_while.
  - unfold mux_disagrees.
    apply transports_bind; [apply relock_read_bytes|]. intros r.
    apply transports_bind; [apply transports_lift|]. intros x.
    apply transports_bind; [apply transports_lift|]. intros y.
    apply transports_ret.
  - apply transports_bind; [intros s; reflexivity|]. intros _.
    apply relock_write_bytes.
Qed.

Lemma relock_enter b fuel :
  transports (relock b) (__enter__ kernel fuel) (__enter__ kernel fuel).
Proof.
  intros s. unfold __enter__. rewrite !bind_get_self.
  cbn [relock self with_self set_locked mux channel verbose].
  destruct (mux (self s)) as [m|]; [|reflexivity].
  destruct (channel (self s)) as [c|]; [|reflexivity].
  apply (relock_handshake b fuel m m c (verbose (self s)) s).
Qed.

Lemma relock_exit b fuel exc :
  transports (relock b) (__exit__ kernel fuel exc) (__exit__ kernel fuel exc).
Proof.
  assert (Hrest : forall u : unit,
            transports (relock b) (close kernel ;; ret false)
              (close kernel ;; ret false)).
  { intros _. apply transports_bind; [apply relock_close|]. intros _.
    apply transports_ret. }
  intros s. unfold __exit__. rewrite !bind_get_self.
  cbn [relock self with_self set_locked mux channel verbose].
  generalize (verbose (self s)). intros v.
  destruct (mux (self s)) as [m|];
    [destruct (channel (self s)) as [c|]|].
  - exact (transports_bind _ _ _ _ _ (relock_handshake b fuel _ m _ v)
             Hrest s).
  - exact (transports_bind _ _ _ _ _ (transports_ret _ tt) Hrest s).
  - exact (transports_bind _ _ _ _ _ (transports_ret _ tt) Hrest s).
Qed.

(** X12.  The lock is advisory.  No method of [SMBasic] looks at
    [_locked]: with the flag set either way, [open], [close],
    [read_bytes], [write_bytes], [__enter__] and [__exit__] have the
    same outcome, make the same system calls, print the same lines
    and leave the flag as they found it.  Taking the lock neither
    opens nor closes anything, and holding it keeps no caller away
    from the bus. *)
Theorem lock_is_advisory b bus fuel exc addr number buf v s :
  open kernel bus (relock b s)
  = (fst (open kernel bus s), relock b (snd (open kernel bus s))) /\
  close kernel (relock b s)
  = (fst (close kernel s), relock b (snd (close kernel s))) /\
  read_bytes kernel addr number (relock b s)
  = (fst (read_bytes kernel addr number s),
     relock b (snd (read_bytes kernel addr number s))) /\
  write_bytes kernel addr buf v (relock b s)
  = (fst (write_bytes kernel addr buf v s),
     relock b (snd (write_bytes kernel addr buf v s))) /\
  __enter__ kernel fuel (relock b s)
  = (fst (__enter__ kernel fuel s),
     relock b (snd (__enter__ kernel fuel s))) /\
  __exit__ kernel fuel exc (relock b s)
  = (fst (__exit__ kernel fuel exc s),
     relock b (snd (__exit__ kernel fuel exc s))) /\
  (_locked (self s) = false ->
   snd (try_lock s) = relock true s /\
   snd (unlock (relock true s)) = s).
Proof.
  split; [apply relock_open|].
  split; [apply relock_close|].
  split; [apply relock_read_bytes|].
  split; [apply relock_write_bytes|].
  split; [apply relock_enter|].
  split; [apply relock_exit|].
  intros Hfree. rewrite try_lock_run, Hfree.
  split; [reflexivity|].
  rewrite unlock_run. cbn [relock self with_self set_locked _locked].
  destruct s as [[mx ch vb dv lk] h a k t]. cbn in Hfree. subst lk.
  reflexivity.
Qed.

(** ** Descriptors *)

Lemma descriptors_app t1 t2 cur :
  descriptors (t1 ++ t2) cur
  = match descriptors t1 cur with
    | Some c => descriptors t2 c
    | None => None
    end.
Proof.
  revert cur. induction t1 as [|e t1 IH]; intros cur; [reflexivity|].
  destruct e as [bus [fd|en]|fd|fd rq a r| | |fd n r|fd b r|l|ms];
    cbn [app descriptors]; try apply IH.
  - destruct cur; [reflexivity | apply IH].
  - destruct (held cur fd); [apply IH | reflexivity].
  - destruct (held cur fd); [apply IH | reflexivity].
  - destruct (held cur fd); [apply IH | reflexivity].
  - destruct (held cur fd); [apply IH | reflexivity].
Qed.

Lemma disciplined_app s s' t :
  disciplined s ->
  trace s' = trace s ++ t ->
  descriptors t (_device (self s)) = Some (_device (self s')) ->
  disciplined s'.
Proof.
  unfold disciplined. intros Hs -> Ht.
  now rewrite descriptors_app, Hs.
Qed.

Lemma descriptors_select_events fd addr v r :
  descriptors (select_events fd addr v r) (Some fd) = Some (Some fd).
Proof.
  unfold select_events. destruct v; cbn [app descriptors held];
    now rewrite Z.eqb_refl.
Qed.

Lemma descriptors_read_events o fd addr number r :
  descriptors (read_events o fd addr number r) (Some fd) = Some (Some fd).
Proof.
  unfold read_events. rewrite descriptors_app, descriptors_select_events.
  cbn [app descriptors held]. rewrite Z.eqb_refl.
  rewrite descriptors_app.
  unfold read_report. destruct r; [destruct (verbose o)| |]; reflexivity.
Qed.

Lemma descriptors_write_events o fd addr buf v w :
  descriptors (write_events o fd addr buf v w) (Some fd) = Some (Some fd).
Proof.
  unfold write_events. rewrite descriptors_app, descriptors_select_events.
  rewrite descriptors_app.
  replace (descriptors (if v then [EPrint (WritingBytesLine buf)] else [])
             (Some fd)) with (Some (Some fd)) by (destruct v; reflexivity).
  cbn [app descriptors held]. rewrite Z.eqb_refl.
  rewrite descriptors_app.
  unfold write_report. destruct w; reflexivity.
Qed.

Lemma stable_ret {A} (a : A) : stable (K := K) (ret a).
Proof. intros s Hs. exact Hs. Qed.

Lemma stable_lift {A} (r : pyres A) : stable (K := K) (lift r).
Proof. destruct r; intros s Hs; exact Hs. Qed.

Lemma stable_bind {A B} (m : @M K A) (f : A -> @M K B) :
  stable m -> (forall a, stable (f a)) -> stable (bind m f).
Proof.
  intros Hm Hf s Hs. unfold bind. specialize (Hm s Hs).
  destruct (m s) as [[a|e| |] s1]; cbn [snd] in *; try exact Hm.
  now apply Hf.
Qed.

Lemma stable_while fuel (cond : @M K bool) (body : @M K unit) :
  stable cond -> stable body -> stable (while_ fuel cond body).
Proof.
  intros Hc Hb. induction fuel as [|fuel IH]; cbn [while_].
  - intros s Hs. exact Hs.
  - apply stable_bind; [exact Hc|]. intros [|].
    + apply stable_bind; auto.
    + apply stable_ret.
Qed.

Lemma stable_sleep ms : stable (K := K) (sleep ms).
Proof.
  intros s Hs. eapply disciplined_app; [exact Hs|reflexivity|reflexivity].
Qed.

Lemma stable_read_bytes addr number : stable (read_bytes kernel addr number).
Proof.
  intros s Hs. destruct (_device (self s)) as [fd|] eqn:Hdev.
  - rewrite (read_bytes_run s fd) by exact Hdev.
    destruct (sys_ioctl kernel fd _I2C_DEVICE (Z.land addr 127) (kstate s))
      as [[[]|e] k1].
    + destruct (sys_read kernel fd number k1) as [r k2].
      eapply disciplined_app; [exact Hs|reflexivity|].
      cbn [snd self]. rewrite Hdev. apply descriptors_read_events.
    + eapply disciplined_app; [exact Hs|reflexivity|].
      cbn [snd self with_trace with_kstate]. rewrite Hdev.
      apply descriptors_select_events.
  - now rewrite (read_bytes_closed s) by exact Hdev.
Qed.

Lemma stable_write_bytes addr buf v :
  stable (write_bytes kernel addr buf v).
Proof.
  intros s Hs. destruct (_device (self s)) as [fd|] eqn:Hdev.
  - rewrite (write_bytes_run s fd) by exact Hdev.
    destruct (sys_ioctl kernel fd _I2C_DEVICE (Z.land addr 127) (kstate s))
      as [[[]|e] k1].
    + destruct (sys_write kernel fd buf k1) as [r k2].
      eapply disciplined_app; [exact Hs|reflexivity|].
      cbn [snd self]. rewrite Hdev. apply descriptors_write_events.
    + eapply disciplined_app; [exact Hs|reflexivity|].
      cbn [snd self with_trace with_kstate]. rewrite Hdev.
      apply descriptors_select_events.
  - now rewrite (write_bytes_closed s) by exact Hdev.
Qed.

Lemma stable_close : stable (close kernel).
Proof.
  intros s Hs. rewrite close_run.
  destruct (_device (self s)) as [fd|] eqn:Hdev; [|exact Hs].
  eapply disciplined_app; [exact Hs|reflexivity|].
  rewrite Hdev. cbn [descriptors held]. now rewrite Z.eqb_refl.
Qed.

Lemma stable_open bus : stable (open kernel bus).
Proof.
  intros s Hs. destruct (_device (self s)) as [old|] eqn:Hdev.
  - rewrite (open_run_again bus s old) by exact Hdev.
    destruct (sys_open kernel bus (sys_close kernel old (kstate s)))
      as [[fd|en] k1];
      (eapply disciplined_app; [exact Hs|reflexivity|]);
      cbn [snd self set_device _device]; rewrite ?Hdev;
      cbn [descriptors held]; now rewrite Z.eqb_refl.
  - rewrite (open_run_fresh bus s) by exact Hdev.
    destruct (sys_open kernel bus (kstate s)) as [[fd|en] k1];
      (eapply disciplined_app; [exact Hs|reflexivity|]);
      cbn [snd self set_device _device]; rewrite ?Hdev; reflexivity.
Qed.

Lemma stable_handshake fuel a0 m target v :
  stable
    (write_bytes kernel a0 target v ;;
     while_ fuel (mux_disagrees kernel m target)
       (sleep 50 ;; write_bytes kernel m target v)).
Proof.
  apply stable_bind; [apply stable_write_bytes|]. intros _.
  apply stable_while.
  - unfold mux_disagrees.
    apply stable_bind; [apply stable_read_bytes|]. intros r.
    apply stable_bind; [apply stable_lift|]. intros x.
    apply stable_bind; [apply stable_lift|]. intros y.
    apply stable_ret.
  - apply stable_bind; [apply stable_sleep|]. intros _.
    apply stable_write_bytes.
Qed.

Lemma stable_enter fuel : stable (__enter__ kernel fuel).
Proof.
  intros s. unfold __enter__. rewrite bind_get_self.
  destruct (mux (self s)) as [m|]; [|apply stable_ret].
  destruct (channel (self s)) as [c|]; [|apply stable_ret].
  apply stable_handshake.
Qed.

Lemma stable_exit fuel exc : stable (__exit__ kernel fuel exc).
Proof.
  assert (Hrest : forall u : unit,
            stable (K := K) (close kernel ;; ret false)).
  { intros _. apply stable_bind; [apply stable_close|]. intros _.
    apply stable_ret. }
  intros s. unfold __exit__. rewrite bind_get_self.
  generalize (verbose (self s)). intros v.
  destruct (mux (self s)) as [m|];
    [destruct (channel (self s)) as [c|]|].
  - exact (stable_bind _ _ (stable_handshake fuel _ m _ v) Hrest s).
  - exact (stable_bind _ _ (stable_ret tt) Hrest s).
  - exact (stable_bind _ _ (stable_ret tt) Hrest s).
Qed.

Lemma stable_try_lock : stable (K := K) try_lock.
Proof.
  intros s Hs. rewrite try_lock_run.
  destruct (_locked (self s)); exact Hs.
Qed.

Lemma stable_unlock : stable (K := K) unlock.
Proof.
  intros s Hs. rewrite unlock_run.
  destruct (_locked (self s)); exact Hs.
Qed.

Lemma after_method_disciplined c s :
  disciplined s -> disciplined (after_method kernel c s).
Proof.
  destruct c as [[]|]; cbn [after_method after_call].
  - apply stable_try_lock.
  - apply stable_open.
  - apply stable_close.
  - apply stable_read_bytes.
  - apply stable_write_bytes.
  - apply stable_enter.
  - apply stable_exit.
  - apply stable_unlock.
Qed.

Lemma after_methods_disciplined cs : forall s,
  disciplined s -> disciplined (after_methods kernel cs s).
Proof.
  unfold after_methods.
  induction cs as [|c cs IH]; intros s Hs; cbn [fold_left]; [exact Hs|].
  apply IH. now apply after_method_disciplined.
Qed.

Lemma init_disciplined bus mx ch v s :
  disciplined s -> _device (self s) = None ->
  disciplined (snd (__init__ kernel bus mx ch v s)).
Proof.
  intros Hs Hdev. rewrite init_run.
  destruct mx as [m|], ch as [c|]; try exact Hs.
  - destruct ((0 <=? c) && (c <=? 7)).
    + apply stable_open. unfold disciplined in *.
      cbn [trace self with_self _device]. now rewrite Hs, Hdev.
    + unfold disciplined in *.
      cbn [snd trace self with_self set_mux _device]. exact Hs.
  - apply stable_open. unfold disciplined in *.
    cbn [trace self with_self _device]. now rewrite Hs, Hdev.
Qed.

(** X14.  The class keeps its descriptor in order.  Starting from a
    session that holds no descriptor, construct the object and call
    its methods in any order and with any arguments, whatever each
    call does: the bus is never opened while a descriptor is held
    (none leaks), every [close], [ioctl], [read] and [write] is on the
    descriptor held at that moment (none is closed twice or used
    after its close), and [_device] is the descriptor the trace ends
    with. *)
Theorem descriptor_is_never_leaked bus mx ch v cs s :
  disciplined s ->
  _device (self s) = None ->
  disciplined
    (after_methods kernel cs (snd (__init__ kernel bus mx ch v s))) /\
  disciplined (after_methods kernel cs s).
Proof.
  intros Hs Hdev. split.
  - apply after_methods_disciplined. now apply init_disciplined.
  - now apply after_methods_disciplined.
Qed.

(** ** A scope that cannot be entered *)

(** X15.  When [__enter__] raises, the [with] statement raises the
    same exception without running its body and without calling
    [__exit__]: the object is as it was, with the handle it had, still
    open if it was.  The exception is the assertion error of a
    session without a handle, an [OSError] of an address selection
    the kernel refused, or the [TypeError] of [ord] on a read that
    did not yield one byte; a transfer that timed out never raises
    here. *)
Theorem enter_failure_skips_body_and_exit
  {A} fuel (body : @M K A) s e :
  fst (__enter__ kernel fuel s) = Raises e ->
  with_ kernel fuel body s = (Raises e, snd (__enter__ kernel fuel s)) /\
  self (snd (__enter__ kernel fuel s)) = self s /\
  ((exists en, e = OSError en) \/ e = TypeError
   \/ e = AssertionError not_open_msg) /\
  (e = AssertionError not_open_msg <-> _device (self s) = None) /\
  e <> TimeoutException.
Proof.
  intros Hraise.
  assert (Hwith : with_ kernel fuel body s
                  = (Raises e, snd (__enter__ kernel fuel s))).
  { unfold with_. unfold bind at 1.
    destruct (__enter__ kernel fuel s) as [out s1]. cbn [fst] in Hraise.
    subst out. reflexivity. }
  split; [exact Hwith|]. clear Hwith.
  destruct (mux (self s)) as [m|] eqn:Hmux;
    [destruct (channel (self s)) as [c|] eqn:Hch|].
  - destruct (_device (self s)) as [fd|] eqn:Hdev.
    + destruct (handshake_run fuel s fd m m c (verbose (self s)) Hdev)
        as (out & s' & t & Hrun & Hself & _ & Hview).
      assert (Henter : __enter__ kernel fuel s = (out, s')).
      { rewrite <- Hrun. unfold __enter__. rewrite bind_get_self.
        rewrite Hmux, Hch. reflexivity. }
      rewrite Henter in *. cbn [fst snd] in *. subst out.
      split; [exact Hself|].
      assert (Hkind : (exists en, e = OSError en) \/ e = TypeError).
      { cbn [handshake_view] in Hview.
        destruct Hview as [(en & -> & _) | (w & rws & tl & _ & _ & Hab & _)].
        - left. now exists en.
        - inversion Hab; subst; [left; eauto | now right | left; eauto]. }
      split; [tauto|]. split.
      * split; [|discriminate].
        intros ->. destruct Hkind as [(en & H) | H]; discriminate H.
      * intros ->. destruct Hkind as [(en & H) | H]; discriminate H.
    + rewrite (enter_run_mux_closed fuel s m c Hdev Hmux Hch) in *.
      cbn [fst snd] in *. injection Hraise as <-.
      split; [reflexivity|]. split; [tauto|]. split; [tauto|]. discriminate.
  - rewrite (enter_run_plain fuel s) in Hraise by (right; exact Hch).
    discriminate Hraise.
  - rewrite (enter_run_plain fuel s) in Hraise by (left; exact Hmux).
    discriminate Hraise.
Qed.

End Properties.

(** * Runs on the bench *)

(** The scenario of the specification: bus 1, mux [0x70], channel 2.
    Entering writes [0x04] to [0x70] and polls; the mux answers [0x00]
    once, so the mask is written again, and then [0x04]. *)
Example enter_on_bench :
  let s := Bench.session (Bench.free [Done [x00]; Done [x04]])
             (Some 0x70) (Some 2) in
  fst (__enter__ Bench.kernel 5 s) = Returns tt /\
  bus_view (trace (snd (__enter__ Bench.kernel 5 s))) =
  [EIoctl 3 0x0703 0x70 (Ok tt); EWrite 3 [x04] (Done 1%nat);
   EIoctl 3 0x0703 0x70 (Ok tt); ERead 3 1 (Done [x00]);
   ESleep 50;
   EIoctl 3 0x0703 0x70 (Ok tt); EWrite 3 [x04] (Done 1%nat);
   EIoctl 3 0x0703 0x70 (Ok tt); ERead 3 1 (Done [x04])].
Proof. split; reflexivity. Qed.

(** A mux that never acknowledges keeps [__enter__] polling: the
    reads stall, the timeout turns each into a zero byte, and fuel
    runs out. *)
Example enter_on_silent_bench :
  let s := Bench.session (Bench.free []) (Some 0x70) (Some 2) in
  fst (__enter__ Bench.kernel 3 s) = OutOfFuel /\
  fst (__enter__ Bench.kernel 30 s) = OutOfFuel.
Proof. split; reflexivity. Qed.

(** A mux that echoes the byte written last is locked at the first
    poll. *)
Example enter_on_echo_mux :
  let s := snd (__init__ EchoMux.kernel 1 (Some 0x70) (Some 2) false
                  (boot [])) in
  fst (__enter__ EchoMux.kernel 1 s) = Returns tt /\
  bus_view (trace (snd (__enter__ EchoMux.kernel 1 s))) =
  [EIoctl 3 0x0703 0x70 (Ok tt); EWrite 3 [x04] (Done 1%nat);
   EIoctl 3 0x0703 0x70 (Ok tt); ERead 3 1 (Done [x04])].
Proof. split; reflexivity. Qed.

(** A mux at [0x71] on a bus where a kernel driver owns [0x70]:
    entering locks the channel, but the unlock handshake of [__exit__]
    is cut short by the refused selection of [0x70], and the handle
    stays open. *)
Example exit_on_claimed_bench :
  let s := Bench.session (Bench.claimed [Done [x04]]) (Some 0x71) (Some 2) in
  let s1 := snd (__enter__ Bench.kernel 5 s) in
  fst (__enter__ Bench.kernel 5 s) = Returns tt /\
  fst (__exit__ Bench.kernel 5 None s1) = Raises (OSError Bench.EBUSY) /\
  _device (self (snd (__exit__ Bench.kernel 5 None s1))) = Some 3.
Proof. repeat split. Qed.

(** ** Runs on a latched mux

    The mux at [0x70] keeps reporting the mask of channel 2, so
    [__enter__] returns at its first poll.  What [__exit__] does next
    depends on the bus. *)





(** C2.  The unlock step of [__exit__] on a session whose mux is at
    [0x71]: the first zero byte is written after selecting address
    [0x70], not the configured [0x71]; the polls and the repeated
    write select [0x71]. *)
Theorem exit_first_unlock_write_selects_0x70 :
  let s := Bench.session (Bench.free [Done [x04]; Done [x00]])
             (Some 0x71) (Some 2) in
  mux (self s) = Some 0x71 /\
  fst (__exit__ Bench.kernel 5 None s) = Returns false /\
  bus_view (trace (snd (__exit__ Bench.kernel 5 None s))) =
  [EIoctl 3 0x0703 0x70 (Ok tt); EWrite 3 [x00] (Done 1%nat);
   EIoctl 3 0x0703 0x71 (Ok tt); ERead 3 1 (Done [x04]);
   ESleep 50;
   EIoctl 3 0x0703 0x71 (Ok tt); EWrite 3 [x00] (Done 1%nat);
   EIoctl 3 0x0703 0x71 (Ok tt); ERead 3 1 (Done [x00])].
Proof. repeat split. Qed.

(** ** The theorems at work *)

Lemma transfer_failures_are_masked_witness :
  let silent_bus := Bench.session (Bench.free []) None None in
  let dead_bus := Bench.session Bench.dead None None in
  _device (self silent_bus) = Some 3 /\
  _device (self dead_bus) = Some 3 /\
  fst (read_bytes Bench.kernel 0x40 2 silent_bus) = Returns [x00; x00] /\
  fst (write_bytes Bench.kernel 0x40 [x01] false silent_bus) = Returns tt /\
  fst (write_bytes Bench.kernel 0x40 [x01] false dead_bus) = Returns tt /\
  In (EPrint (IOErrorWriteLine None None Bench.EREMOTEIO))
    (trace (snd (write_bytes Bench.kernel 0x40 [x01] false dead_bus))).
Proof.
  cbv zeta. do 2 (split; [reflexivity|]).
  destruct (proj1 (transfer_failures_are_masked Bench.kernel
                     (Bench.session (Bench.free []) None None)
                     3 0x40 2 [x01] false (Bench.free [])
                     eq_refl eq_refl)
              Stalled (Bench.free []) eq_refl eq_refl)
    as (l & _ & Hread).
  destruct (proj2 (transfer_failures_are_masked Bench.kernel
                     (Bench.session Bench.dead None None)
                     3 0x40 2 [x01] false Bench.dead
                     eq_refl eq_refl)
              (Fault Bench.EREMOTEIO) (Bench.free []) eq_refl eq_refl)
    as (l' & Hline & Hwrite).
  rewrite Hread, Hwrite. injection Hline as <-.
  split; [reflexivity|]. split; [reflexivity|]. split; [reflexivity|].
  cbn [snd trace]. apply in_or_app. right. cbn. auto 10.
Defined.

Lemma enter_locks_channel_witness :
  let s := Bench.session (Bench.free [Done [x00]; Done [x04]])
             (Some 0x70) (Some 2) in
  _device (self s) = Some 3 /\
  mux (self s) = Some 0x70 /\
  channel (self s) = Some [x04] /\
  exists out s' t,
    __enter__ Bench.kernel 5 s = (out, s') /\
    self s' = self s /\
    trace s' = trace s ++ t /\
    answers Bench.kernel t (kstate s) (kstate s') /\
    handshake_view 3 0x70 0x70 [x04] 5 out (bus_view t) /\
    (out = Returns tt <-> Exists (hits [x04]) t).
Proof.
  cbv zeta. do 3 (split; [reflexivity|]).
  destruct (enter_locks_channel Bench.kernel 5
              (Bench.session (Bench.free [Done [x00]; Done [x04]])
                 (Some 0x70) (Some 2))
              3 0x70 2 eq_refl eq_refl eq_refl)
    as (out & s' & t & Hrun & Hself & Htr & Hans & Hview & Hiff & _).
  exists out, s', t. auto 10.
Defined.

Lemma closed_session_refuses_transfers_witness :
  let s1 := Bench.session (Bench.free []) None None in
  __init__ Bench.kernel 1 None None false (boot (Bench.free []))
    = (Returns tt, s1) /\
  fst (read_bytes Bench.kernel 0x40 1 (snd (close Bench.kernel s1)))
    = Raises (AssertionError not_open_msg) /\
  fst (write_bytes Bench.kernel 0x40 [x01] false
         (snd (close Bench.kernel s1)))
    = Raises (AssertionError not_open_msg).
Proof.
  cbv zeta. split; [reflexivity|].
  destruct (closed_session_refuses_transfers Bench.kernel 1 None None false
              (boot (Bench.free []))
              (Bench.session (Bench.free []) None None) eq_refl)
    as (fd & s2 & _ & Hclose & _ & _ & Hrefuse).
  rewrite Hclose. cbn [snd].
  destruct (Hrefuse 0x40 1%nat [x01] false) as [-> ->]. split; reflexivity.
Defined.

Lemma init_requires_mux_and_channel_together_witness :
  __init__ Bench.kernel 1 (Some 0x70) None false (boot (Bench.free []))
    = (Raises (AssertionError EmptyString), boot (Bench.free [])) /\
  fst (__init__ Bench.kernel 1 (Some 0x70) (Some 2) false
         (boot (Bench.free [])))
    <> Raises (AssertionError EmptyString).
Proof.
  split.
  - apply (proj1 (init_requires_mux_and_channel_together Bench.kernel 1
                    (Some 0x70) None false (boot (Bench.free [])))).
    discriminate.
  - apply (proj2 (init_requires_mux_and_channel_together Bench.kernel 1
                    (Some 0x70) (Some 2) false (boot (Bench.free [])))).
    reflexivity.
Defined.

Lemma try_lock_once_until_unlock_witness :
  let s := Bench.session (Bench.free []) None None in
  _locked (self s) = false /\
  fst (try_lock s) = Returns true /\
  fst (try_lock
         (after_calls Bench.kernel
            [CallTryLock; CallReadBytes 0x40 1; CallTryLock]
            (snd (try_lock s)))) = Returns false /\
  fst (try_lock (snd (unlock (snd (try_lock s))))) = Returns true.
Proof.
  cbv zeta. split; [reflexivity|].
  destruct (try_lock_once_until_unlock Bench.kernel
              (Bench.session (Bench.free []) None None) eq_refl)
    as (s1 & Hfirst & _ & Hlater & Hunlock & _ & Hthen).
  rewrite Hfirst. cbn [fst snd].
  destruct (Hlater [CallTryLock; CallReadBytes 0x40 1; CallTryLock])
    as [_ Hagain].
  rewrite Hagain, Hthen. repeat split.
Defined.

Lemma alarm_brackets_transfer_witness :
  let s := Bench.session Bench.dead None None in
  _device (self s) = Some 3 /\
  alarm s = None /\
  alarm (snd (read_bytes Bench.kernel 0x40 2 s)) = None /\
  alarm (snd (write_bytes Bench.kernel 0x40 [x01] false s)) = None.
Proof.
  cbv zeta. split; [reflexivity|]. split; [reflexivity|].
  exact (proj2 (alarm_brackets_transfer Bench.kernel
                  (Bench.session Bench.dead None None) 3 0x40 2 [x01] false
                  eq_refl) eq_refl).
Defined.


Lemma init_checks_channel_range_witness :
  fst (__init__ Bench.kernel 1 (Some 0x70) (Some 8) false
         (boot (Bench.free []))) = Raises ValueError /\
  fst (__init__ Bench.kernel 1 (Some 0x70) (Some (-1)) false
         (boot (Bench.free []))) = Raises ValueError /\
  channel (self (Bench.session (Bench.free []) (Some 0x70) (Some 2)))
    = Some [x04].
Proof.
  destruct (init_checks_channel_range Bench.kernel 1 false
              (boot (Bench.free []))) as [Hbad Hgood].
  destruct (Hbad 0x70 8 (or_intror eq_refl)) as (s8 & -> & _).
  destruct (Hbad 0x70 (-1) (or_introl eq_refl)) as (sm & -> & _).
  do 2 (split; [reflexivity|]).
  destruct (Hgood (Some 0x70) (Some 2)
              (Bench.session (Bench.free []) (Some 0x70) (Some 2)) 0x70
              eq_refl eq_refl)
    as (c & b & _ & Hc & _ & Hmask & Hb & _).
  injection Hc as <-. rewrite Hmask, Hb. reflexivity.
Defined.

Lemma reopen_closes_previous_handle_witness :
  let s := Bench.session (Bench.free []) None None in
  _device (self s) = Some 3 /\
  trace (snd (open Bench.kernel 1 s))
    = trace s ++ [EClose 3; EOpen 1 (Ok 3)] /\
  fst (open Bench.kernel (-1) s) = Raises (OSError Bench.ENOENT) /\
  _device (self (snd (open Bench.kernel (-1) s))) = None.
Proof.
  cbv zeta. split; [reflexivity|].
  destruct (reopen_closes_previous_handle Bench.kernel 1
              (Bench.session (Bench.free []) None None) 3 eq_refl)
    as (r & k1 & Hopen & Htr & _).
  injection Hopen as <- _.
  split; [exact Htr|].
  destruct (reopen_closes_previous_handle Bench.kernel (-1)
              (Bench.session (Bench.free []) None None) 3 eq_refl)
    as (r' & k1' & Hopen' & _ & _ & Hres).
  injection Hopen' as <- _.
  destruct Hres as [-> ->]. split; reflexivity.
Defined.

Lemma poll_condition_compares_the_byte_read_witness :
  let s := Bench.session (Bench.free [Done [x04]]) (Some 0x70) (Some 2) in
  _device (self s) = Some 3 /\
  sys_ioctl Bench.kernel 3 _I2C_DEVICE (Z.land 0x70 0x7F) (kstate s)
    = (Ok tt, Bench.free [Done [x04]]) /\
  sys_read Bench.kernel 3 1 (Bench.free [Done [x04]])
    = (Done [x04], Bench.free []) /\
  fst (mux_disagrees Bench.kernel 0x70 [x04] s) = Returns false /\
  fst (mux_disagrees Bench.kernel 0x70 [x00] s) = Returns true.
Proof.
  cbv zeta. do 3 (split; [reflexivity|]).
  split.
  - exact (proj1 (poll_condition_compares_the_byte_read Bench.kernel
                    (Bench.session (Bench.free [Done [x04]])
                       (Some 0x70) (Some 2))
                    3 0x70 [x04] (Bench.free [Done [x04]]) (Done [x04])
                    (Bench.free []) eq_refl eq_refl eq_refl)
             x04 eq_refl).
  - exact (proj1 (poll_condition_compares_the_byte_read Bench.kernel
                    (Bench.session (Bench.free [Done [x04]])
                       (Some 0x70) (Some 2))
                    3 0x70 [x00] (Bench.free [Done [x04]]) (Done [x04])
                    (Bench.free []) eq_refl eq_refl eq_refl)
             x04 eq_refl).
Defined.

Lemma with_without_mux_runs_body_then_closes_witness :
  let s := Bench.session (Bench.free [Done [x2a]]) None None in
  mux (self s) = None /\
  mux (self (snd (read_bytes Bench.kernel 0x40 1 s))) = None /\
  fst (with_ Bench.kernel 5 (read_bytes Bench.kernel 0x40 1) s)
    = Returns (Some [x2a]) /\
  _device (self (snd (with_ Bench.kernel 5
                        (read_bytes Bench.kernel 0x40 1) s))) = None.
Proof.
  cbv zeta. do 2 (split; [reflexivity|]).
  rewrite (with_without_mux_runs_body_then_closes Bench.kernel 5
             (read_bytes Bench.kernel 0x40 1)
             (Bench.session (Bench.free [Done [x2a]]) None None)
             eq_refl eq_refl).
  split; vm_compute; reflexivity.
Defined.

Lemma configuration_is_fixed_at_construction_witness :
  let s1 := snd (__init__ Bench.kernel 1 (Some 0x70) (Some 2) true
                   (boot (Bench.free [Done [x04]]))) in
  let s := after_methods Bench.kernel
             [Method (CallEnter 3); Method CallClose; MethodUnlock;
              Method (CallOpen 1); Method (CallExit 3 None)] s1 in
  __init__ Bench.kernel 1 (Some 0x70) (Some 2) true
    (boot (Bench.free [Done [x04]])) = (Returns tt, s1) /\
  mux (self s) = Some 0x70 /\
  verbose (self s) = true /\
  channel (self s) = Some [x04].
Proof.
  cbv zeta. split; [reflexivity|].
  destruct (configuration_is_fixed_at_construction Bench.kernel 1
              (Some 0x70) (Some 2) true
              (boot (Bench.free [Done [x04]])) _
              [Method (CallEnter 3); Method CallClose; MethodUnlock;
               Method (CallOpen 1); Method (CallExit 3 None)] eq_refl)
    as (Hmux & Hverbose & Hchannel & _).
  split; [exact Hmux|]. split; [exact Hverbose|]. exact Hchannel.
Defined.

Lemma init_opens_the_bus_once_witness :
  trace (snd (__init__ Bench.kernel 1 (Some 0x70) (Some 2) false
                (boot (Bench.free []))))
    = [EOpen 1 (Ok 3)] /\
  fst (__init__ Bench.kernel (-1) None None false (boot (Bench.free [])))
    = Raises (OSError Bench.ENOENT).
Proof.
  split.
  - destruct (init_opens_the_bus_once Bench.kernel 1 (Some 0x70) (Some 2)
                false (boot (Bench.free [])))
      as (r & k1 & Hopen & Htr & _).
    { right. exists 0x70, 2. repeat split; lia. }
    injection Hopen as <- _. exact Htr.
  - destruct (init_opens_the_bus_once Bench.kernel (-1) None None
                false (boot (Bench.free [])) (or_introl (conj eq_refl eq_refl)))
      as (r & k1 & Hopen & _ & _ & _ & Hres).
    injection Hopen as <- _. exact (proj1 Hres).
Defined.

Lemma exit_takes_a_failed_poll_for_unlocked_witness :
  let s := Bench.session Bench.dead (Some 0x70) (Some 2) in
  _device (self s) = Some 3 /\
  sys_read Bench.kernel 3 1 (Bench.free []) = (Stalled, Bench.free []) /\
  fst (__exit__ Bench.kernel 1 None s) = Returns false /\
  _device (self (snd (__exit__ Bench.kernel 1 None s))) = None /\
  bus_view (trace (snd (__exit__ Bench.kernel 1 None s)))
    = bus_write 3 0x70 [x00] (Fault Bench.EREMOTEIO)
      ++ bus_read 3 0x70 1 Stalled.
Proof.
  cbv zeta. do 2 (split; [reflexivity|]).
  rewrite (exit_takes_a_failed_poll_for_unlocked Bench.kernel 0 None
             (Bench.session Bench.dead (Some 0x70) (Some 2))
             3 0x70 [x04] Bench.dead (Fault Bench.EREMOTEIO)
             (Bench.free []) (Bench.free []) Stalled (Bench.free [])
             eq_refl eq_refl eq_refl eq_refl eq_refl eq_refl eq_refl
             (or_introl eq_refl)).
  repeat split.
Defined.

Lemma enter_polls_forever_on_a_dead_mux_witness :
  let s := Bench.session Bench.dead (Some 0x70) (Some 2) in
  _device (self s) = Some 3 /\
  channel (self s) = Some [x04] /\
  forall fuel, fst (__enter__ Bench.kernel fuel s) = OutOfFuel.
Proof.
  cbv zeta. do 2 (split; [reflexivity|]).
  apply (enter_polls_forever_on_a_dead_mux Bench.kernel
           (Bench.session Bench.dead (Some 0x70) (Some 2)) 3 0x70 [x04]
           (fun k => Bench.script k = [] /\ Bench.busy k = None)
           eq_refl eq_refl eq_refl (conj eq_refl eq_refl)).
  - intros k arg [Hscript Hbusy]. exists k. cbn. rewrite Hbusy. auto.
  - intros k buf [Hscript Hbusy]. cbn.
    destruct (Bench.wscript k) as [|w tl]; eexists _, _;
      (split; [reflexivity|]); cbn; auto.
  - intros k [Hscript Hbusy]. exists Stalled, k. cbn. rewrite Hscript.
    split; [reflexivity|]. split; [|auto].
    split; [reflexivity | discriminate].
Defined.

Lemma descriptor_is_never_leaked_witness :
  let s := boot (Bench.free [Done [x04]; Done [x00]]) in
  let cs := [Method (CallEnter 3); Method (CallReadBytes 0x40 2);
             Method (CallOpen 1); Method (CallExit 3 None);
             Method CallClose; Method (CallOpen (-1));
             Method (CallWriteBytes 0x40 [x01] true)] in
  disciplined s /\
  _device (self s) = None /\
  disciplined
    (after_methods Bench.kernel cs
       (snd (__init__ Bench.kernel 1 (Some 0x70) (Some 2) false s))).
Proof.
  cbv zeta. do 2 (split; [reflexivity|]).
  exact (proj1 (descriptor_is_never_leaked Bench.kernel 1 (Some 0x70)
                  (Some 2) false _ (boot (Bench.free [Done [x04]; Done [x00]]))
                  eq_refl eq_refl)).
Defined.

Lemma enter_failure_skips_body_and_exit_witness :
  let s := Bench.session (Bench.claimed []) (Some 0x70) (Some 2) in
  fst (__enter__ Bench.kernel 5 s) = Raises (OSError Bench.EBUSY) /\
  fst (with_ Bench.kernel 5 (close Bench.kernel) s)
    = Raises (OSError Bench.EBUSY) /\
  _device (self (snd (with_ Bench.kernel 5 (close Bench.kernel) s)))
    = Some 3.
Proof.
  cbv zeta.
  assert (Hraise :
    fst (__enter__ Bench.kernel 5
           (Bench.session (Bench.claimed []) (Some 0x70) (Some 2)))
    = Raises (OSError Bench.EBUSY)) by (vm_compute; reflexivity).
  split; [exact Hraise|].
  destruct (enter_failure_skips_body_and_exit Bench.kernel 5
              (close Bench.kernel) _ _ Hraise)
    as (Hwith & Hself & _).
  rewrite Hwith. cbn [fst snd]. rewrite Hself. split; reflexivity.
Defined.
